(** * Weather & News aggregator: the Express server and the news card of the client

    A shallow embedding of [server.js] (the three JSON routes) and of
    [createNewsCard] from [public/script.js], with the part of JavaScript they
    run on: JSON values, property reads that throw on [undefined] and [null],
    truthiness, [||], [?.], [Math.round], [encodeURIComponent], template
    literals, [try]/[catch], and [axios.get] as the only outbound effect. *)

From Stdlib Require Import ZArith QArith List String Ascii Bool Lia.
From Stdlib Require Import SpecFloat PrimFloat FloatOps DecimalString.
Import ListNotations.
Local Open Scope string_scope.
Local Open Scope list_scope.
Local Open Scope Z_scope.
Set Warnings "-register-all,-inexact-float".

(** ** Strings

    A JavaScript string is a sequence of UTF-16 code units (each below 65536).
    [lit] embeds the ASCII literals of the source. *)

Definition code_unit := N.
Definition jsstring := list code_unit.

Definition lit (s : string) : jsstring :=
  map N_of_ascii (list_ascii_of_string s).

Fixpoint jsstring_eqb (a b : jsstring) : bool :=
  match a, b with
  | [], [] => true
  | x :: a', y :: b' => N.eqb x y && jsstring_eqb a' b'
  | _, _ => false
  end.

(** ** Numbers

    A JavaScript number is an IEEE 754 binary64 value; [spec_float] is the
    Standard Library's specification of them: signed zeros, infinities, NaN
    and [S754_finite s m e], which stands for (-1)^s * m * 2^e. *)

Definition number := spec_float.

Definition prec : Z := 53.

(** The binary64 value of an integer below 2^53 in magnitude, in canonical
    form (a 53-bit mantissa). *)
Definition number_of_pos (s : bool) (p : positive) : number :=
  let (m, e) := shl_align p 0 (Z.pos (digits2_pos p) - prec) in
  S754_finite s m e.

Definition number_of_Z (n : Z) : number :=
  match n with
  | Z0 => S754_zero false
  | Zpos p => number_of_pos false p
  | Zneg p => number_of_pos true p
  end.

(** A decimal literal read as binary64, the way [JSON.parse] reads the
    numbers of a payload. *)
Definition dec (x : float) : number := Prim2SF x.

(** The signed mantissa of a finite number. *)
Definition signed (s : bool) (m : positive) : Z :=
  if s then Z.neg m else Z.pos m.

(** [floor (x + 1/2)] for x = sm * 2^e with e < 0. *)
Definition round_half_up (sm e : Z) : Z :=
  (2 * sm + 2 ^ (- e)) / 2 ^ (1 - e).

(** [Math.round] on a number: NaN, the infinities and the zeros are returned
    as they are; a finite value goes to the nearest integer, a tie to the one
    towards +infinity; a result of zero keeps the sign of the argument. *)
Definition Math_round_number (x : number) : number :=
  match x with
  | S754_finite s m e =>
      if 0 <=? e then x
      else
        let n := round_half_up (signed s m) e in
        if n =? 0 then S754_zero s else number_of_Z n
  | _ => x
  end.

(** The rational value of a finite number ([None] for NaN and infinities). *)
Definition number_to_Q (x : number) : option Q :=
  match x with
  | S754_zero _ => Some (0 # 1)%Q
  | S754_finite s m e =>
      if 0 <=? e then Some (inject_Z (signed s m * 2 ^ e))
      else Some (Qmake (signed s m) (Z.to_pos (2 ^ (- e))))
  | _ => None
  end.

(** ** Values

    The values that [JSON.parse] produces, plus [undefined]. An object is the
    list of its own properties in insertion order, with distinct keys. *)

Inductive value : Type :=
| VUndefined
| VNull
| VBool (b : bool)
| VNum (x : number)
| VStr (s : jsstring)
| VArr (l : list value)
| VObj (o : list (jsstring * value)).

Fixpoint lookup (k : jsstring) (o : list (jsstring * value)) : option value :=
  match o with
  | [] => None
  | (k', v) :: o' => if jsstring_eqb k k' then Some v else lookup k o'
  end.

Definition is_nullish (v : value) : bool :=
  match v with
  | VUndefined | VNull => true
  | _ => false
  end.

(** ** Exceptions and the result of an expression *)

Inductive exn : Type :=
| TypeError (message : jsstring)
| URIError (message : jsstring)
| AxiosError (response : option Z) (message : jsstring).

(** [error.message] *)
Definition message_of (e : exn) : jsstring :=
  match e with
  | TypeError m | URIError m | AxiosError _ m => m
  end.

(** [error.response?.status]: only an axios error that carries the upstream
    response has one. *)
Definition response_status (e : exn) : option Z :=
  match e with
  | AxiosError r _ => r
  | _ => None
  end.

Inductive result (A : Type) : Type :=
| Ok (a : A)
| Throw (e : exn).
Arguments Ok {A} a.
Arguments Throw {A} e.

Definition bind {A B : Type} (m : result A) (f : A -> result B) : result B :=
  match m with
  | Ok a => f a
  | Throw e => Throw e
  end.

Declare Scope js_scope.
Delimit Scope js_scope with js.
Notation "x <- m ;; k" := (bind m (fun x => k))
  (at level 100, m at next level, right associativity) : js_scope.
Local Open Scope js_scope.

Fixpoint mapM {A B : Type} (f : A -> result B) (l : list A) : result (list B) :=
  match l with
  | [] => Ok []
  | a :: l' => b <- f a ;; bs <- mapM f l' ;; Ok (b :: bs)
  end.

(** ** Property reads *)

Definition digit_of (c : code_unit) : option N :=
  if (48 <=? c)%N && (c <=? 57)%N then Some (c - 48)%N else None.

Fixpoint digits_value (acc : N) (s : jsstring) : option N :=
  match s with
  | [] => Some acc
  | c :: s' =>
      match digit_of c with
      | Some d => digits_value (10 * acc + d)%N s'
      | None => None
      end
  end.

(** A property key that is a canonical array index: ["0"], or decimal digits
    with no leading zero. *)
Definition index_of_key (k : jsstring) : option nat :=
  match k with
  | [] => None
  | c :: k' =>
      if N.eqb c 48 then
        match k' with [] => Some O | _ => None end
      else option_map N.to_nat (digits_value 0 k)
  end.

Definition quoted (k : jsstring) : jsstring :=
  lit "'" ++ k ++ lit "'".

(** V8's wording for a property read on [undefined] or [null]. *)
Definition cannot_read (what : string) (k : jsstring) : exn :=
  TypeError (lit "Cannot read properties of " ++ lit what
             ++ lit " (reading " ++ quoted k ++ lit ")").

(** [v.k] and [v[k]]. The routes read only own properties of parsed JSON: no
    key they use is inherited from a prototype, so a key that is not an own
    property reads as [undefined]. *)
Definition get (v : value) (k : jsstring) : result value :=
  match v with
  | VUndefined => Throw (cannot_read "undefined" k)
  | VNull => Throw (cannot_read "null" k)
  | VBool _ | VNum _ => Ok VUndefined
  | VStr s =>
      if jsstring_eqb k (lit "length") then
        Ok (VNum (number_of_Z (Z.of_nat (List.length s))))
      else
        match index_of_key k with
        | Some i =>
            match nth_error s i with
            | Some c => Ok (VStr [c])
            | None => Ok VUndefined
            end
        | None => Ok VUndefined
        end
  | VArr l =>
      if jsstring_eqb k (lit "length") then
        Ok (VNum (number_of_Z (Z.of_nat (List.length l))))
      else
        match index_of_key k with
        | Some i =>
            match nth_error l i with
            | Some x => Ok x
            | None => Ok VUndefined
            end
        | None => Ok VUndefined
        end
  | VObj o =>
      match lookup k o with
      | Some x => Ok x
      | None => Ok VUndefined
      end
  end.

(** [v?.k] and [v?.[k]] *)
Definition get_opt (v : value) (k : jsstring) : result value :=
  if is_nullish v then Ok VUndefined else get v k.

(** Truthiness. The zeros and NaN are the falsy numbers. *)
Definition ToBoolean (v : value) : bool :=
  match v with
  | VUndefined | VNull => false
  | VBool b => b
  | VNum (S754_zero _) | VNum S754_nan => false
  | VNum _ => true
  | VStr [] => false
  | VStr _ => true
  | VArr _ | VObj _ => true
  end.

(** [a || b], for a [b] that has no effect. *)
Definition or_else (a b : value) : value :=
  if ToBoolean a then a else b.

(** [v.map(f)]: an array maps element by element, in order; anything else has
    no callable [map]. [callee] is the source text V8 quotes in the error. *)
Definition call_map (callee : string) (v : value) (f : value -> result value)
  : result value :=
  match v with
  | VArr l => l' <- mapM f l ;; Ok (VArr l')
  | VUndefined => Throw (cannot_read "undefined" (lit "map"))
  | VNull => Throw (cannot_read "null" (lit "map"))
  | _ => Throw (TypeError (lit callee ++ lit ".map is not a function"))
  end.

(** ** What the routes take from the JavaScript host

    Decimal conversion of numbers and date formatting are built into the
    engine and are no part of this repository: the development is
    parametric in them. *)

Record Host : Type := {
  (** [Number::toString]: the shortest decimal text that reads back *)
  NumberToString : number -> jsstring;
  (** [StringToNumber]: the number a string denotes, NaN when none *)
  StringToNumber : jsstring -> number;
  (** [new Date(p).toLocaleDateString('en-US', {year: 'numeric',
      month: 'long', day: 'numeric'})] for a primitive [p] *)
  toLocaleDateString : value -> jsstring
}.

(** [process.env]: the two API keys, when set. *)
Record process_env : Type := {
  env_OPENWEATHER_API_KEY : option jsstring;
  env_NEWS_API_KEY : option jsstring
}.

Section Program.

Variable host : Host.
Variable env : process_env.

(** ** Conversions *)

(** [ToString]. An array joins its elements with commas, [undefined] and
    [null] elements as the empty string. A parsed object has the inherited
    [toString] unless an own property of that name (never callable, coming
    from JSON) shadows it. *)
Fixpoint ToString (v : value) : result jsstring :=
  match v with
  | VUndefined => Ok (lit "undefined")
  | VNull => Ok (lit "null")
  | VBool true => Ok (lit "true")
  | VBool false => Ok (lit "false")
  | VNum x => Ok (NumberToString host x)
  | VStr s => Ok s
  | VArr l =>
      (fix join (l : list value) : result jsstring :=
         match l with
         | [] => Ok []
         | x :: l' =>
             a <- (if is_nullish x then Ok [] else ToString x) ;;
             match l' with
             | [] => Ok a
             | _ => b <- join l' ;; Ok (a ++ lit "," ++ b)
             end
         end) l
  | VObj o =>
      match lookup (lit "toString") o with
      | Some _ => Throw (TypeError (lit "Cannot convert object to primitive value"))
      | None => Ok (lit "[object Object]")
      end
  end.

(** [ToPrimitive]: arrays and objects convert through their [toString]. *)
Definition ToPrimitive (v : value) : result value :=
  match v with
  | VArr _ | VObj _ => s <- ToString v ;; Ok (VStr s)
  | _ => Ok v
  end.

Definition ToNumber (v : value) : result number :=
  p <- ToPrimitive v ;;
  match p with
  | VUndefined => Ok S754_nan
  | VNull => Ok (S754_zero false)
  | VBool true => Ok (number_of_Z 1)
  | VBool false => Ok (S754_zero false)
  | VNum x => Ok x
  | VStr s => Ok (StringToNumber host s)
  | VArr _ | VObj _ => Ok S754_nan
  end.

(** [Math.round(v)] *)
Definition Math_round (v : value) : result value :=
  x <- ToNumber v ;;
  Ok (VNum (Math_round_number x)).

(** A template literal: the pieces converted with [ToString], left to right,
    and concatenated. *)
Fixpoint template (pieces : list value) : result jsstring :=
  match pieces with
  | [] => Ok []
  | p :: ps => a <- ToString p ;; b <- template ps ;; Ok (a ++ b)
  end.

(** ** [encodeURIComponent] *)

Definition unreserved (c : code_unit) : bool :=
  ((65 <=? c) && (c <=? 90) || (97 <=? c) && (c <=? 122)
   || (48 <=? c) && (c <=? 57)
   || existsb (N.eqb c) (lit "-_.!~*'()"))%N.

Definition hex_digit (d : N) : code_unit :=
  nth (N.to_nat d) (lit "0123456789ABCDEF") 48%N.

Definition percent (byte : N) : jsstring :=
  lit "%" ++ [hex_digit (byte / 16); hex_digit (byte mod 16)]%N.

(** The UTF-8 bytes of a code point. *)
Definition utf8 (cp : N) : list N :=
  (if cp <? 128 then [cp]
   else if cp <? 2048 then [192 + cp / 64; 128 + cp mod 64]
   else if cp <? 65536 then
     [224 + cp / 4096; 128 + (cp / 64) mod 64; 128 + cp mod 64]
   else
     [240 + cp / 262144; 128 + (cp / 4096) mod 64;
      128 + (cp / 64) mod 64; 128 + cp mod 64])%N.

Definition is_high_surrogate (c : code_unit) : bool :=
  ((55296 <=? c) && (c <=? 56319))%N.

Definition is_low_surrogate (c : code_unit) : bool :=
  ((56320 <=? c) && (c <=? 57343))%N.

Definition URI_malformed : exn := URIError (lit "URI malformed").

Fixpoint Encode (s : jsstring) : result jsstring :=
  match s with
  | [] => Ok []
  | c :: rest =>
      if unreserved c then r <- Encode rest ;; Ok (c :: r)
      else if is_low_surrogate c then Throw URI_malformed
      else if is_high_surrogate c then
        match rest with
        | c2 :: rest' =>
            if is_low_surrogate c2 then
              r <- Encode rest' ;;
              Ok (flat_map percent
                    (utf8 (65536 + (c - 55296) * 1024 + (c2 - 56320))%N) ++ r)
            else Throw URI_malformed
        | [] => Throw URI_malformed
        end
      else r <- Encode rest ;; Ok (flat_map percent (utf8 c) ++ r)
  end.

Definition encodeURIComponent (v : value) : result jsstring :=
  s <- ToString v ;;
  Encode s.

(** ** JSON on the wire

    What a client reads back from [res.json(v)]: [JSON.stringify] leaves out
    the properties whose value is [undefined], writes [undefined] array
    elements, NaN and the infinities as [null], and the negative zero as 0. *)
Fixpoint wire (v : value) : value :=
  match v with
  | VUndefined => VNull
  | VNum S754_nan | VNum (S754_infinity _) => VNull
  | VNum (S754_zero _) => VNum (S754_zero false)
  | VArr l => VArr (map wire l)
  | VObj o =>
      VObj ((fix props (o : list (jsstring * value)) :=
               match o with
               | [] => []
               | (k, VUndefined) :: o' => props o'
               | (k, x) :: o' => (k, wire x) :: props o'
               end) o)
  | _ => v
  end.

(** ** The outside world and the handler monad

    A route handler runs against the upstream providers. [axios.get(url)]
    resolves with the response when its status is 2xx and rejects otherwise:
    with the response attached when the provider answered, without one when
    the request never got an answer. A handler computation reads the world,
    appends to the log of what it did, and returns or throws. *)

Record axios_response : Type := {
  data : value;
  response_code : Z
}.

Inductive upstream : Type :=
| Resolves (r : axios_response)
| Rejects (response : option Z) (message : jsstring).

Definition world := jsstring -> upstream.

Inductive event : Type :=
| HttpGet (url : jsstring)
| ConsoleError (label message : jsstring).

Definition M (A : Type) : Type :=
  world -> list event -> result A * list event.

Definition ret {A : Type} (a : A) : M A :=
  fun _ t => (Ok a, t).

Definition bindM {A B : Type} (m : M A) (f : A -> M B) : M B :=
  fun w t =>
    match m w t with
    | (Ok a, t') => f a w t'
    | (Throw e, t') => (Throw e, t')
    end.

Notation "x <~ m ;; k" := (bindM m (fun x => k))
  (at level 100, m at next level, right associativity) : js_scope.

(** An expression without effects, inside a handler. *)
Definition eval {A : Type} (r : result A) : M A :=
  fun _ t => (r, t).

(** [try { m } catch (e) { h e }] *)
Definition try_catch {A : Type} (m : M A) (h : exn -> M A) : M A :=
  fun w t =>
    match m w t with
    | (Ok a, t') => (Ok a, t')
    | (Throw e, t') => h e w t'
    end.

(** [await axios.get(url)] *)
Definition axios_get (url : jsstring) : M axios_response :=
  fun w t =>
    match w url with
    | Resolves r => (Ok r, t ++ [HttpGet url])
    | Rejects response message =>
        (Throw (AxiosError response message), t ++ [HttpGet url])
    end.

(** [console.error(label, message)] *)
Definition console_error (label : string) (message : jsstring) : M unit :=
  fun _ t => (Ok tt, t ++ [ConsoleError (lit label) message]).

(** A handler from its first statement, with an empty log. *)
Definition run {A : Type} (m : M A) (w : world) : result A * list event :=
  m w [].

(** The outbound requests of a log, in order. *)
Fixpoint outbound (t : list event) : list jsstring :=
  match t with
  | [] => []
  | HttpGet url :: t' => url :: outbound t'
  | ConsoleError _ _ :: t' => outbound t'
  end.

(** ** Express requests and responses *)

Record request : Type := {
  query : list (jsstring * value)
}.

Record http_response : Type := {
  status : Z;
  body : value
}.

(** [const { name } = req.query] *)
Definition query_param (req : request) (name : string) : value :=
  match lookup (lit name) (query req) with
  | Some v => v
  | None => VUndefined
  end.

(** [res.status(code).json(body)] and [res.json(body)] *)
Definition res_status_json (code : Z) (b : value) : http_response :=
  {| status := code; body := b |}.

Definition res_json (b : value) : http_response :=
  res_status_json 200 b.

(** An object literal and a string literal of the source. *)
Definition obj (props : list (string * value)) : value :=
  VObj (map (fun p => (lit (fst p), snd p)) props).

Definition str (s : string) : value := VStr (lit s).

(** [v.k1.k2...]: property reads from left to right. *)
Definition path (v : value) (ks : list string) : result value :=
  fold_left (fun r k => x <- r ;; get x (lit k)) ks (Ok v).

(** [error.response?.status === code] *)
Definition status_is (error : exn) (code : Z) : bool :=
  match response_status error with
  | Some s => s =? code
  | None => false
  end.

(** ** server.js *)

(** [process.env.KEY || 'demo_key'] *)
Definition key_or_demo (k : option jsstring) : jsstring :=
  match k with
  | Some (c :: s) => c :: s
  | _ => lit "demo_key"
  end.

Definition OPENWEATHER_API_KEY : jsstring :=
  key_or_demo (env_OPENWEATHER_API_KEY env).

Definition NEWS_API_KEY : jsstring :=
  key_or_demo (env_NEWS_API_KEY env).

Definition weatherUrl (city : value) : result jsstring :=
  q <- encodeURIComponent city ;;
  Ok (lit "https://api.openweathermap.org/data/2.5/weather?q=" ++ q
      ++ lit "&appid=" ++ OPENWEATHER_API_KEY ++ lit "&units=metric").

Definition newsUrl (query : value) : result jsstring :=
  q <- encodeURIComponent query ;;
  Ok (lit "https://newsapi.org/v2/everything?q=" ++ q
      ++ lit "&language=en&sortBy=publishedAt&pageSize=5&apiKey="
      ++ NEWS_API_KEY).

(** The shaping of the weather payload in [/api/weather]: the properties of
    the object literal, evaluated top to bottom. *)
Definition processedData (weatherData : value) : result value :=
  temp <- path weatherData ["main"; "temp"] ;;
  temperature <- Math_round temp ;;
  description <- path weatherData ["weather"; "0"; "description"] ;;
  lat <- path weatherData ["coord"; "lat"] ;;
  lon <- path weatherData ["coord"; "lon"] ;;
  feels_like <- path weatherData ["main"; "feels_like"] ;;
  feelsLike <- Math_round feels_like ;;
  wind <- get weatherData (lit "wind") ;;
  speed <- get_opt wind (lit "speed") ;;
  country <- path weatherData ["sys"; "country"] ;;
  rain <- get weatherData (lit "rain") ;;
  rain3h <- get_opt rain (lit "3h") ;;
  name <- get weatherData (lit "name") ;;
  humidity <- path weatherData ["main"; "humidity"] ;;
  pressure <- path weatherData ["main"; "pressure"] ;;
  icon <- path weatherData ["weather"; "0"; "icon"] ;;
  Ok (obj [("temperature", temperature);
           ("description", description);
           ("coordinates", obj [("lat", lat); ("lon", lon)]);
           ("feelsLike", feelsLike);
           ("windSpeed", or_else speed (VNum (number_of_Z 0)));
           ("countryCode", country);
           ("rainVolume", or_else rain3h (VNum (number_of_Z 0)));
           ("city", name);
           ("humidity", humidity);
           ("pressure", pressure);
           ("icon", icon)]).

(** [app.get('/api/weather', ...)] *)
Definition get_api_weather (req : request) : M http_response :=
  try_catch
    (let city := query_param req "city" in
     if negb (ToBoolean city) then
       ret (res_status_json 400
              (obj [("error", str "City parameter is required");
                    ("example", str "/api/weather?city=London")]))
     else
       weatherUrl <~ eval (weatherUrl city) ;;
       weatherResponse <~ axios_get weatherUrl ;;
       let weatherData := data weatherResponse in
       processedData <~ eval (processedData weatherData) ;;
       ret (res_json processedData))
    (fun error =>
       _ <~ console_error "Weather API Error:" (message_of error) ;;
       if status_is error 404 then
         ret (res_status_json 404
                (obj [("error", str "City not found");
                      ("message", str "Please check the city name and try again")]))
       else if status_is error 401 then
         ret (res_status_json 401
                (obj [("error", str "Invalid API key");
                      ("message", str "Please check your OpenWeather API key")]))
       else
         ret (res_status_json 500
                (obj [("error", str "Failed to fetch weather data");
                      ("message", VStr (message_of error))]))).

(** The arrow function of [/api/news] that shapes one upstream article. *)
Definition news_article (article : value) : result value :=
  title <- get article (lit "title") ;;
  description <- get article (lit "description") ;;
  url <- get article (lit "url") ;;
  publishedAt <- get article (lit "publishedAt") ;;
  source <- path article ["source"; "name"] ;;
  imageUrl <- get article (lit "urlToImage") ;;
  Ok (obj [("title", title);
           ("description", description);
           ("url", url);
           ("publishedAt", publishedAt);
           ("source", source);
           ("imageUrl", imageUrl)]).

(** The shaping of the news payload in [/api/news]. *)
Definition processedNews (newsData : value) : result value :=
  totalResults <- get newsData (lit "totalResults") ;;
  upstream_articles <- get newsData (lit "articles") ;;
  articles <- call_map "newsData.articles" upstream_articles news_article ;;
  Ok (obj [("totalResults", totalResults); ("articles", articles)]).

(** [app.get('/api/news', ...)] *)
Definition get_api_news (req : request) : M http_response :=
  try_catch
    (let city := query_param req "city" in
     let country := query_param req "country" in
     if negb (ToBoolean city) && negb (ToBoolean country) then
       ret (res_status_json 400
              (obj [("error", str "City or country parameter is required");
                    ("example",
                     str "/api/news?city=London or /api/news?country=GB")]))
     else
       let query := or_else city country in
       newsUrl <~ eval (newsUrl query) ;;
       newsResponse <~ axios_get newsUrl ;;
       let newsData := data newsResponse in
       processedNews <~ eval (processedNews newsData) ;;
       ret (res_json processedNews))
    (fun error =>
       _ <~ console_error "News API Error:" (message_of error) ;;
       if status_is error 401 then
         ret (res_status_json 401
                (obj [("error", str "Invalid API key");
                      ("message", str "Please check your News API key")]))
       else if status_is error 429 then
         ret (res_status_json 429
                (obj [("error", str "API rate limit exceeded");
                      ("message", str "Please try again later")]))
       else
         ret (res_status_json 500
                (obj [("error", str "Failed to fetch news data");
                      ("message", VStr (message_of error))]))).

(** The shaping of the weather payload in [/api/data], written out a second
    time in the source. *)
Definition processedWeather (weatherData : value) : result value :=
  temp <- path weatherData ["main"; "temp"] ;;
  temperature <- Math_round temp ;;
  description <- path weatherData ["weather"; "0"; "description"] ;;
  lat <- path weatherData ["coord"; "lat"] ;;
  lon <- path weatherData ["coord"; "lon"] ;;
  feels_like <- path weatherData ["main"; "feels_like"] ;;
  feelsLike <- Math_round feels_like ;;
  wind <- get weatherData (lit "wind") ;;
  speed <- get_opt wind (lit "speed") ;;
  country <- path weatherData ["sys"; "country"] ;;
  rain <- get weatherData (lit "rain") ;;
  rain3h <- get_opt rain (lit "3h") ;;
  name <- get weatherData (lit "name") ;;
  humidity <- path weatherData ["main"; "humidity"] ;;
  pressure <- path weatherData ["main"; "pressure"] ;;
  icon <- path weatherData ["weather"; "0"; "icon"] ;;
  Ok (obj [("temperature", temperature);
           ("description", description);
           ("coordinates", obj [("lat", lat); ("lon", lon)]);
           ("feelsLike", feelsLike);
           ("windSpeed", or_else speed (VNum (number_of_Z 0)));
           ("countryCode", country);
           ("rainVolume", or_else rain3h (VNum (number_of_Z 0)));
           ("city", name);
           ("humidity", humidity);
           ("pressure", pressure);
           ("icon", icon)]).

(** The arrow function of [/api/data] that shapes one upstream article. *)
Definition data_article (article : value) : result value :=
  title <- get article (lit "title") ;;
  description <- get article (lit "description") ;;
  url <- get article (lit "url") ;;
  publishedAt <- get article (lit "publishedAt") ;;
  source <- path article ["source"; "name"] ;;
  imageUrl <- get article (lit "urlToImage") ;;
  Ok (obj [("title", title);
           ("description", description);
           ("url", url);
           ("publishedAt", publishedAt);
           ("source", source);
           ("imageUrl", imageUrl)]).

(** The body of the inner [try] of [/api/data]: the news request and the
    object assigned to [newsData]. *)
Definition newsData_try (city : value) : M value :=
  newsUrl <~ eval (newsUrl city) ;;
  newsResponse <~ axios_get newsUrl ;;
  eval (totalResults <- get (data newsResponse) (lit "totalResults") ;;
        upstream_articles <- get (data newsResponse) (lit "articles") ;;
        articles <- call_map "newsResponse.data.articles"
                      upstream_articles data_article ;;
        Ok (obj [("totalResults", totalResults); ("articles", articles)])).

(** The object assigned to [newsData] in the inner [catch]. *)
Definition newsData_unavailable : value :=
  obj [("totalResults", VNum (number_of_Z 0));
       ("articles", VArr []);
       ("error", str "News data unavailable")].

(** [app.get('/api/data', ...)] *)
Definition get_api_data (req : request) : M http_response :=
  try_catch
    (let city := query_param req "city" in
     if negb (ToBoolean city) then
       ret (res_status_json 400
              (obj [("error", str "City parameter is required");
                    ("example", str "/api/data?city=London")]))
     else
       weatherUrl <~ eval (weatherUrl city) ;;
       weatherResponse <~ axios_get weatherUrl ;;
       let weatherData := data weatherResponse in
       processedWeather <~ eval (processedWeather weatherData) ;;
       newsData <~
         try_catch (newsData_try city)
           (fun newsError =>
              _ <~ console_error "News API Error (non-blocking):"
                     (message_of newsError) ;;
              ret newsData_unavailable) ;;
       ret (res_json (obj [("weather", processedWeather);
                           ("news", newsData)])))
    (fun error =>
       _ <~ console_error "Combined API Error:" (message_of error) ;;
       if status_is error 404 then
         ret (res_status_json 404
                (obj [("error", str "City not found");
                      ("message", str "Please check the city name and try again")]))
       else
         ret (res_status_json 500
                (obj [("error", str "Failed to fetch data");
                      ("message", VStr (message_of error))]))).

(** ** public/script.js: the news card *)

(** The element a card is: its class and its markup. *)
Record element : Type := {
  className : jsstring;
  innerHTML : jsstring
}.

(** A double quote, a line feed and the arrow of the link text. *)
Definition dq : value := VStr [34%N].
Definition nl : value := VStr [10%N].
Definition rightwards_arrow : value := VStr [8594%N].

(** The template literal of the [img] tag. *)
Definition image_markup (imageUrl title : value) : result jsstring :=
  template [str "<img src="; dq; imageUrl; dq; str " alt="; dq; title; dq;
            str " class="; dq; str "news-image"; dq;
            str " onerror="; dq; str "this.style.display='none'"; dq;
            str ">"].

(** The template literal assigned to [card.innerHTML]. *)
Definition card_markup (image source title description publishedDate url : value)
  : result jsstring :=
  template
    [nl; str "        "; image; nl;
     str "        <div class="; dq; str "news-content"; dq; str ">"; nl;
     str "            <div class="; dq; str "news-source"; dq; str ">";
     source; str "</div>"; nl;
     str "            <h3 class="; dq; str "news-title"; dq; str ">";
     title; str "</h3>"; nl;
     str "            <p class="; dq; str "news-description"; dq; str ">";
     description; str "</p>"; nl;
     str "            <div class="; dq; str "news-date"; dq; str ">";
     publishedDate; str "</div>"; nl;
     str "            <a href="; dq; url; dq;
     str " target="; dq; str "_blank"; dq;
     str " rel="; dq; str "noopener noreferrer"; dq;
     str " class="; dq; str "news-link"; dq; str ">"; nl;
     str "                Read more "; rightwards_arrow; nl;
     str "            </a>"; nl;
     str "        </div>"; nl;
     str "    "].

(** [createNewsCard(article)] *)
Definition createNewsCard (article : value) : result element :=
  imageUrl <- get article (lit "imageUrl") ;;
  image <- (if ToBoolean imageUrl then
              title <- get article (lit "title") ;;
              image_markup imageUrl title
            else Ok []) ;;
  publishedAt <- get article (lit "publishedAt") ;;
  date <- ToPrimitive publishedAt ;;
  let publishedDate := toLocaleDateString host date in
  source <- get article (lit "source") ;;
  title <- get article (lit "title") ;;
  description <- get article (lit "description") ;;
  url <- get article (lit "url") ;;
  markup <- card_markup (VStr image)
              (or_else source (str "Unknown Source"))
              (or_else title (str "No title available"))
              (or_else description (str "No description available"))
              (VStr publishedDate) url ;;
  Ok {| className := lit "news-card"; innerHTML := markup |}.

End Program.

(** ** Reading a JSON object *)

(** The value of a property of an object, [undefined] when it has none. *)
Definition field (v : value) (k : string) : value :=
  match v with
  | VObj o =>
      match lookup (lit k) o with
      | Some x => x
      | None => VUndefined
      end
  | _ => VUndefined
  end.

(** The own property of an object is there. *)
Definition has_field (v : value) (k : string) : bool :=
  match v with
  | VObj o =>
      match lookup (lit k) o with
      | Some _ => true
      | None => false
      end
  | _ => false
  end.

(** ** Vocabulary of the statements *)

(** [y] is an integer nearest to [x]: within one half of it, the upper one
    when [x] lies halfway between two integers. Infinities and NaN, which
    have no rational value, are left aside. *)
Definition rounds_to_nearest (x y : number) : Prop :=
  forall q : Q,
    number_to_Q x = Some q ->
    exists (n : Z) (r : Q),
      number_to_Q y = Some r /\ (r == inject_Z n)%Q
      /\ (inject_Z n - (1 # 2) <= q)%Q /\ (q < inject_Z n + (1 # 2))%Q.

(** A key that is neither ["length"] nor an array index: on every receiver
    that can be read at all, it reads as the own property of that name. *)
Definition plain_key (k : string) : bool :=
  negb (jsstring_eqb (lit k) (lit "length"))
  && match index_of_key (lit k) with Some _ => false | None => true end.

(** A field the provider left out, or sent as [null]. *)
Definition missing (v : value) : Prop :=
  v = VUndefined \/ v = VNull.

(** What a client reads for a property that the server set to [v]: nothing
    when [v] is [undefined], the wire form of [v] otherwise. *)
Definition wire_prop (v : value) : value :=
  match v with
  | VUndefined => VUndefined
  | _ => wire v
  end.

(** The properties of the wire form of an object. *)
Definition wire_props (o : list (jsstring * value)) : list (jsstring * value) :=
  match wire (VObj o) with
  | VObj o' => o'
  | _ => []
  end.

(** A value that is neither an array nor an object. *)
Definition primitive (v : value) : bool :=
  match v with
  | VArr _ | VObj _ => false
  | _ => true
  end.

(** The least that the sentence about the News Adapter asks of a shaping of
    articles: where the title, the description or the image is missing
    upstream, the shaped article holds some value in its place. *)
Definition substitutes_when_missing (shaping : value -> result value) : Prop :=
  forall article shaped,
    shaping article = Ok shaped ->
    (missing (field article "title") -> field shaped "title" <> VUndefined)
    /\ (missing (field article "description") ->
        field shaped "description" <> VUndefined)
    /\ (missing (field article "urlToImage") ->
        field shaped "imageUrl" <> VUndefined).

(** One string inside another. *)
Definition contains (part whole : jsstring) : Prop :=
  exists before after, whole = before ++ part ++ after.

(** The title and the description of a card, as [createNewsCard] writes them
    around their text. *)
Definition title_element (text : jsstring) : jsstring :=
  lit "<h3 class=" ++ [34%N] ++ lit "news-title" ++ [34%N] ++ lit ">"
  ++ text ++ lit "</h3>".

Definition description_element (text : jsstring) : jsstring :=
  lit "<p class=" ++ [34%N] ++ lit "news-description" ++ [34%N] ++ lit ">"
  ++ text ++ lit "</p>".

(** How the markup of a card begins, with [image] where the [img] tag
    goes. *)
Definition card_opening (image : jsstring) : jsstring :=
  [10%N] ++ lit "        " ++ image ++ [10%N]
  ++ lit "        <div class=" ++ [34%N] ++ lit "news-content" ++ [34%N]
  ++ lit ">".

(** ** Example inputs *)

(** A host for the examples. They convert no number to text and read no
    number out of a string, and the only date they format is a missing one,
    which reads "Invalid Date". *)
Definition example_host : Host :=
  {| NumberToString := fun _ => lit "NaN";
     StringToNumber := fun _ => S754_nan;
     toLocaleDateString := fun _ => lit "Invalid Date" |}.

Definition example_env : process_env :=
  {| env_OPENWEATHER_API_KEY := None; env_NEWS_API_KEY := None |}.

(** The payload of the README and of the London scenario: 15.3 degrees,
    feels like 14.1, wind 3.5 m/s, no rain. *)
Definition london : value :=
  obj [("coord", obj [("lon", VNum (dec (-0.1278)%float));
                      ("lat", VNum (dec 51.5074%float))]);
       ("weather", VArr [obj [("description", str "clear sky");
                              ("icon", str "01d")]]);
       ("main", obj [("temp", VNum (dec 15.3%float));
                     ("feels_like", VNum (dec 14.1%float));
                     ("pressure", VNum (dec 1013%float));
                     ("humidity", VNum (dec 65%float))]);
       ("wind", obj [("speed", VNum (dec 3.5%float))]);
       ("sys", obj [("country", str "GB")]);
       ("name", str "London")].

(** The same place on a calm, dry day: the provider leaves out [wind] and
    [rain]. *)
Definition london_calm : value :=
  obj [("coord", obj [("lon", VNum (dec (-0.1278)%float));
                      ("lat", VNum (dec 51.5074%float))]);
       ("weather", VArr [obj [("description", str "clear sky");
                              ("icon", str "01d")]]);
       ("main", obj [("temp", VNum (dec 14.6%float));
                     ("feels_like", VNum (dec 14.4%float));
                     ("pressure", VNum (dec 1013%float));
                     ("humidity", VNum (dec 65%float))]);
       ("sys", obj [("country", str "GB")]);
       ("name", str "London")].

(** [GET ...?city=London], and the URLs it leads to with the demo keys. *)
Definition london_request : request :=
  {| query := [(lit "city", str "London")] |}.

Definition london_weatherUrl : jsstring :=
  lit "https://api.openweathermap.org/data/2.5/weather?q=London&appid=demo_key&units=metric".

Definition london_newsUrl : jsstring :=
  lit "https://newsapi.org/v2/everything?q=London&language=en&sortBy=publishedAt&pageSize=5&apiKey=demo_key".

(** A request that never gets an answer. *)
Definition unreachable : upstream :=
  Rejects None (lit "getaddrinfo ENOTFOUND").

(** How axios words the rejection of a response by its status. *)
Definition failed_with (code : string) : jsstring :=
  lit "Request failed with status code " ++ lit code.

(** The world of the London request: what the weather provider and the news
    provider do with it. *)
Definition providers (weather news : upstream) : world :=
  fun url =>
    if jsstring_eqb url london_weatherUrl then weather
    else if jsstring_eqb url london_newsUrl then news
    else unreachable.

(** A provider that answers 200 with [payload]. *)
Definition answers (payload : value) : upstream :=
  Resolves {| data := payload; response_code := 200 |}.

(** An upstream article with a source and a link, and nothing else: no title,
    no description, no date, a [null] image. *)
Definition bare_article : value :=
  obj [("source", obj [("id", VNull); ("name", str "BBC News")]);
       ("url", str "https://example.com/article");
       ("urlToImage", VNull)].

(** A complete upstream article. *)
Definition full_article (n : string) : value :=
  obj [("source", obj [("id", VNull); ("name", str "BBC News")]);
       ("title", str n);
       ("description", str "Article description");
       ("url", str "https://example.com/article");
       ("urlToImage", str "https://example.com/image.jpg");
       ("publishedAt", str "2024-01-01T12:00:00Z")].

(** A news payload with six articles, one more than the page size asked. *)
Definition six_articles : value :=
  obj [("status", str "ok");
       ("totalResults", VNum (number_of_Z 1234));
       ("articles",
        VArr [full_article "one"; full_article "two"; bare_article;
              full_article "four"; full_article "five"; full_article "six"])].

(** The report of [/api/weather] for the [london] payload. *)
Definition london_report : value :=
  obj [("temperature", VNum (number_of_Z 15));
       ("description", str "clear sky");
       ("coordinates", obj [("lat", VNum (dec 51.5074%float));
                            ("lon", VNum (dec (-0.1278)%float))]);
       ("feelsLike", VNum (number_of_Z 14));
       ("windSpeed", VNum (dec 3.5%float));
       ("countryCode", str "GB");
       ("rainVolume", VNum (number_of_Z 0));
       ("city", str "London");
       ("humidity", VNum (dec 65%float));
       ("pressure", VNum (dec 1013%float));
       ("icon", str "01d")].

(** The report for the [london_calm] payload. *)
Definition london_calm_report : value :=
  obj [("temperature", VNum (number_of_Z 15));
       ("description", str "clear sky");
       ("coordinates", obj [("lat", VNum (dec 51.5074%float));
                            ("lon", VNum (dec (-0.1278)%float))]);
       ("feelsLike", VNum (number_of_Z 14));
       ("windSpeed", VNum (number_of_Z 0));
       ("countryCode", str "GB");
       ("rainVolume", VNum (number_of_Z 0));
       ("city", str "London");
       ("humidity", VNum (dec 65%float));
       ("pressure", VNum (dec 1013%float));
       ("icon", str "01d")].

(** The articles of the response for [full_article n] and [bare_article]. *)
Definition shaped_full (n : string) : value :=
  obj [("title", str n);
       ("description", str "Article description");
       ("url", str "https://example.com/article");
       ("publishedAt", str "2024-01-01T12:00:00Z");
       ("source", str "BBC News");
       ("imageUrl", str "https://example.com/image.jpg")].

Definition shaped_bare : value :=
  obj [("title", VUndefined);
       ("description", VUndefined);
       ("url", str "https://example.com/article");
       ("publishedAt", VUndefined);
       ("source", str "BBC News");
       ("imageUrl", VNull)].

(** [GET /api/data?city=UnknownPlace123], the URL it leads to, and a weather
    provider that knows no such place. *)
Definition unknown_place_request : request :=
  {| query := [(lit "city", str "UnknownPlace123")] |}.

Definition unknown_place_weatherUrl : jsstring :=
  lit "https://api.openweathermap.org/data/2.5/weather?q=UnknownPlace123&appid=demo_key&units=metric".

Definition nothing_found : world :=
  fun _ => Rejects (Some 404) (failed_with "404").

(** A request with no query string. *)
Definition bare_request : request := {| query := [] |}.

(** A code unit that may stand in a URI component as it is: unreserved, or
    the percent sign of an escape. *)
Definition uri_safe (c : code_unit) : bool :=
  unreserved c || N.eqb c 37.

(** [GET /api/news?city=London&country=GB] *)
Definition london_gb_request : request :=
  {| query := [(lit "city", str "London"); (lit "country", str "GB")] |}.

(** ** public/script.js: the page

    The script runs against the page. [index.html] is not among the sources:
    the page is taken to hold every element that the script looks up by id.
    What the script does to it is kept as the list of its writes, in order,
    with the values it wrote; its only inputs are the text of the city field
    and what [fetch] answers. *)

(** What [await fetch(url)] followed by [await response.json()] can give: no
    response at all, a response whose body is not JSON, or a response with
    its status and parsed body. *)
Inductive fetched : Type :=
| NetworkError (message : jsstring)
| NotJson (code : Z) (message : jsstring)
| Json (code : Z) (payload : value).

(** What the script can find itself catching: an error of the engine, the
    [Error] it throws itself, a failed [fetch] or a body that does not
    parse. *)
Inductive thrown : Type :=
| Raised (e : exn)
| NewError (message : jsstring)
| FetchFailed (message : jsstring)
| JsonSyntaxError (message : jsstring).

(** [error.message] *)
Definition thrown_message (t : thrown) : jsstring :=
  match t with
  | Raised e => message_of e
  | NewError m | FetchFailed m | JsonSyntaxError m => m
  end.

Inductive dom_op : Type :=
| SetTextContent (id : string) (text : value)
| SetDisplay (id : string) (display : string)
| SetInnerHTML (id : string) (html : jsstring)
| AppendChild (id : string) (child : element)
| SetSrc (id : string) (url : jsstring)
| SetAlt (id : string) (text : value)
| ClassListAdd (id cls : string)
| ClassListRemove (id cls : string)
| Fetch (url : jsstring)
| LogError (label : string) (error : thrown).

Record page : Type := {
  cityInput_value : jsstring;
  fetch : jsstring -> fetched
}.

Inductive outcome (A : Type) : Type :=
| Done (a : A)
| Raise (t : thrown).
Arguments Done {A} a.
Arguments Raise {A} t.

Definition UI (A : Type) : Type :=
  page -> list dom_op -> outcome A * list dom_op.

Definition done {A : Type} (a : A) : UI A :=
  fun _ ops => (Done a, ops).

Definition bindUI {A B : Type} (m : UI A) (f : A -> UI B) : UI B :=
  fun p ops =>
    match m p ops with
    | (Done a, ops') => f a p ops'
    | (Raise t, ops') => (Raise t, ops')
    end.

Notation "x <<- m ;; k" := (bindUI m (fun x => k))
  (at level 100, m at next level, right associativity) : js_scope.

(** An expression without effects, inside the script. *)
Definition pure {A : Type} (r : result A) : UI A :=
  fun _ ops =>
    match r with
    | Ok a => (Done a, ops)
    | Throw e => (Raise (Raised e), ops)
    end.

Definition throw {A : Type} (t : thrown) : UI A :=
  fun _ ops => (Raise t, ops).

(** One write to the page. *)
Definition write (op : dom_op) : UI unit :=
  fun _ ops => (Done tt, ops ++ [op]).

(** [try { m } catch (error) { h error }] *)
Definition try_catch_ui {A : Type} (m : UI A) (h : thrown -> UI A) : UI A :=
  fun p ops =>
    match m p ops with
    | (Done a, ops') => (Done a, ops')
    | (Raise t, ops') => h t p ops'
    end.

(** The script from its first statement, on an untouched log. *)
Definition run_ui {A : Type} (m : UI A) (p : page) : outcome A * list dom_op :=
  m p [].

(** *** What the page shows after a list of writes *)

(** The [style.display] last given to an element. *)
Definition display_of (id : string) (ops : list dom_op) : option string :=
  fold_left
    (fun shown op =>
       match op with
       | SetDisplay id' d => if String.eqb id id' then Some d else shown
       | _ => shown
       end) ops None.

(** The [textContent] last given to an element. *)
Definition text_of (id : string) (ops : list dom_op) : option value :=
  fold_left
    (fun text op =>
       match op with
       | SetTextContent id' v => if String.eqb id id' then Some v else text
       | _ => text
       end) ops None.

(** Whether an element carries a class, having had none to begin with. *)
Definition has_class (id cls : string) (ops : list dom_op) : bool :=
  fold_left
    (fun has op =>
       match op with
       | ClassListAdd id' c =>
           if String.eqb id id' && String.eqb cls c then true else has
       | ClassListRemove id' c =>
           if String.eqb id id' && String.eqb cls c then false else has
       | _ => has
       end) ops false.

(** The requests made, in order. *)
Fixpoint fetches (ops : list dom_op) : list jsstring :=
  match ops with
  | [] => []
  | Fetch url :: ops' => url :: fetches ops'
  | _ :: ops' => fetches ops'
  end.

(** *** String and number methods the script calls *)

(** The white space and line terminators of ECMAScript. *)
Definition is_white_space (c : code_unit) : bool :=
  ((9 <=? c) && (c <=? 13) || N.eqb c 32 || N.eqb c 160 || N.eqb c 5760
   || (8192 <=? c) && (c <=? 8202) || N.eqb c 8232 || N.eqb c 8233
   || N.eqb c 8239 || N.eqb c 8287 || N.eqb c 12288 || N.eqb c 65279)%N.

Fixpoint trim_start (s : jsstring) : jsstring :=
  match s with
  | c :: s' => if is_white_space c then trim_start s' else s
  | [] => []
  end.

(** [s.trim()] *)
Definition trim (s : jsstring) : jsstring :=
  rev (trim_start (rev (trim_start s))).

(** The decimal digits of a natural number. *)
Definition digits (n : N) : jsstring :=
  lit (NilZero.string_of_uint (N.to_uint n)).

(** The number of hundredths nearest to m * 2^e, the larger one of two
    equally near. *)
Definition hundredths (m : positive) (e : Z) : N :=
  Z.to_N (if 0 <=? e then 100 * Z.pos m * 2 ^ e
          else (2 * 100 * Z.pos m + 2 ^ (- e)) / 2 ^ (1 - e)).

(** A number of hundredths written with two decimals. *)
Definition fixed2 (n : N) : jsstring :=
  (digits (n / 100) ++ lit "." ++ digits ((n / 10) mod 10)
   ++ digits (n mod 10))%N.

Section Script.

Variable host : Host.

(** [x.toFixed(2)] on a number. Below 10^21 in magnitude it is the nearest
    number of hundredths; NaN, the infinities and the numbers from 10^21 on
    are written as [ToString] writes them. *)
Definition Number_toFixed2 (x : number) : jsstring :=
  match x with
  | S754_zero _ => lit "0.00"
  | S754_finite s m e =>
      if (hundredths m e <? 10 ^ 23)%N then
        (if s then lit "-" else []) ++ fixed2 (hundredths m e)
      else NumberToString host x
  | _ => NumberToString host x
  end.

(** [v.toFixed(2)]: only a number has the method. [callee] is the source
    text V8 quotes in the error. *)
Definition call_toFixed2 (callee : string) (v : value) : result jsstring :=
  match v with
  | VNum x => Ok (Number_toFixed2 x)
  | VUndefined => Throw (cannot_read "undefined" (lit "toFixed"))
  | VNull => Throw (cannot_read "null" (lit "toFixed"))
  | _ => Throw (TypeError (lit callee ++ lit ".toFixed is not a function"))
  end.

(** [v > 0] *)
Definition is_positive (x : number) : bool :=
  match x with
  | S754_finite false _ _ | S754_infinity false => true
  | _ => false
  end.

Definition greater_than_zero (v : value) : result bool :=
  x <- ToNumber host v ;;
  Ok (is_positive x).

(** [await fetch(url)] and [await response.json()] *)
Definition fetch_json (url : jsstring) : UI (Z * value) :=
  fun p ops =>
    match fetch p url with
    | NetworkError message => (Raise (FetchFailed message), ops ++ [Fetch url])
    | NotJson _ message => (Raise (JsonSyntaxError message), ops ++ [Fetch url])
    | Json code payload => (Done (code, payload), ops ++ [Fetch url])
    end.

(** [response.ok] *)
Definition response_ok (code : Z) : bool :=
  (200 <=? code) && (code <=? 299).

(** [array.forEach(f)]: the elements in order, up to the first that throws. *)
Fixpoint for_each (f : value -> UI unit) (l : list value) : UI unit :=
  match l with
  | [] => done tt
  | a :: l' => _ <<- f a ;; for_each f l'
  end.

Definition call_forEach (callee : string) (v : value) (f : value -> UI unit)
  : UI unit :=
  match v with
  | VArr l => for_each f l
  | VUndefined => throw (Raised (cannot_read "undefined" (lit "forEach")))
  | VNull => throw (Raised (cannot_read "null" (lit "forEach")))
  | _ => throw (Raised (TypeError (lit callee
                                   ++ lit ".forEach is not a function")))
  end.

Definition showLoading : UI unit :=
  write (SetDisplay "loadingIndicator" "block").

Definition hideLoading : UI unit :=
  write (SetDisplay "loadingIndicator" "none").

Definition showWeatherSection : UI unit :=
  write (SetDisplay "weatherSection" "block").

Definition hideWeatherSection : UI unit :=
  write (SetDisplay "weatherSection" "none").

Definition showNewsSection : UI unit :=
  write (SetDisplay "newsSection" "block").

Definition hideNewsSection : UI unit :=
  write (SetDisplay "newsSection" "none").

Definition showErrorMessage (message : value) : UI unit :=
  _ <<- write (SetTextContent "errorMessage" message) ;;
  write (ClassListAdd "errorMessage" "show").

Definition hideErrorMessage : UI unit :=
  write (ClassListRemove "errorMessage" "show").

(** The degree sign. *)
Definition degree : value := VStr [176%N].

(** [displayWeatherData(weather)] *)
Definition displayWeatherData (weather : value) : UI unit :=
  city <<- pure (get weather (lit "city")) ;;
  _ <<- write (SetTextContent "cityName" city) ;;
  countryCode <<- pure (get weather (lit "countryCode")) ;;
  _ <<- write (SetTextContent "countryCode" countryCode) ;;
  temperature <<- pure (t <- get weather (lit "temperature") ;;
                        template host [t; degree; str "C"]) ;;
  _ <<- write (SetTextContent "temperature" (VStr temperature)) ;;
  description <<- pure (get weather (lit "description")) ;;
  _ <<- write (SetTextContent "description" description) ;;
  feelsLike <<- pure (t <- get weather (lit "feelsLike") ;;
                      template host [t; degree; str "C"]) ;;
  _ <<- write (SetTextContent "feelsLike" (VStr feelsLike)) ;;
  windSpeed <<- pure (v <- get weather (lit "windSpeed") ;;
                      template host [v; str " m/s"]) ;;
  _ <<- write (SetTextContent "windSpeed" (VStr windSpeed)) ;;
  humidity <<- pure (v <- get weather (lit "humidity") ;;
                     template host [v; str "%"]) ;;
  _ <<- write (SetTextContent "humidity" (VStr humidity)) ;;
  pressure <<- pure (v <- get weather (lit "pressure") ;;
                     template host [v; str " hPa"]) ;;
  _ <<- write (SetTextContent "pressure" (VStr pressure)) ;;
  rainVolume <<- pure (v <- get weather (lit "rainVolume") ;;
                       raining <- greater_than_zero v ;;
                       if raining then
                         v' <- get weather (lit "rainVolume") ;;
                         mm <- template host [v'; str " mm"] ;;
                         Ok (VStr mm)
                       else Ok (str "No rain")) ;;
  _ <<- write (SetTextContent "rainVolume" rainVolume) ;;
  coordinates <<- pure (c <- get weather (lit "coordinates") ;;
                        lat <- get c (lit "lat") ;;
                        lat2 <- call_toFixed2 "weather.coordinates.lat" lat ;;
                        c' <- get weather (lit "coordinates") ;;
                        lon <- get c' (lit "lon") ;;
                        lon2 <- call_toFixed2 "weather.coordinates.lon" lon ;;
                        Ok (lat2 ++ lit ", " ++ lon2)) ;;
  _ <<- write (SetTextContent "coordinates" (VStr coordinates)) ;;
  icon <<- pure (get weather (lit "icon")) ;;
  _ <<- (if ToBoolean icon then
           iconUrl <<- pure (i <- get weather (lit "icon") ;;
                             template host
                               [str "https://openweathermap.org/img/wn/"; i;
                                str "@2x.png"]) ;;
           _ <<- write (SetSrc "weatherIcon" iconUrl) ;;
           alt <<- pure (get weather (lit "description")) ;;
           write (SetAlt "weatherIcon" alt)
         else done tt) ;;
  showWeatherSection.

(** [displayNewsData(articles)] *)
Definition displayNewsData (articles : value) : UI unit :=
  _ <<- write (SetInnerHTML "newsArticles" []) ;;
  _ <<- call_forEach "articles" articles
          (fun article =>
             newsCard <<- pure (createNewsCard host article) ;;
             write (AppendChild "newsArticles" newsCard)) ;;
  showNewsSection.

(** The markup of [displayNoNews]. *)
Definition no_news_markup : jsstring :=
  lit "<div class=" ++ [34%N] ++ lit "no-news" ++ [34%N]
  ++ lit ">No news articles available for this location.</div>".

(** [displayNoNews()] *)
Definition displayNoNews : UI unit :=
  _ <<- write (SetInnerHTML "newsArticles" no_news_markup) ;;
  showNewsSection.

(** [const API_BASE_URL = ''] *)
Definition API_BASE_URL : jsstring := [].

(** The body of the [try] of [fetchWeatherData]. *)
Definition fetchWeatherData_try (city : jsstring) : UI unit :=
  url <<- pure (q <- encodeURIComponent host (VStr city) ;;
                Ok (API_BASE_URL ++ lit "/api/data?city=" ++ q)) ;;
  response <<- fetch_json url ;;
  let (code, data) := response in
  _ <<- (if negb (response_ok code) then
           message <<- pure (error <- get data (lit "error") ;;
                             reason <- (if ToBoolean error then Ok error
                                        else
                                          m <- get data (lit "message") ;;
                                          Ok (or_else m
                                                (str "Failed to fetch data"))) ;;
                             ToString host reason) ;;
           throw (NewError message)
         else done tt) ;;
  _ <<- hideLoading ;;
  weather <<- pure (get data (lit "weather")) ;;
  _ <<- displayWeatherData weather ;;
  news <<- pure (get data (lit "news")) ;;
  has_news <<- pure (if ToBoolean news then
                       articles <- get news (lit "articles") ;;
                       if ToBoolean articles then
                         n <- get articles (lit "length") ;;
                         greater_than_zero n
                       else Ok false
                     else Ok false) ;;
  if has_news then
    articles <<- pure (n <- get data (lit "news") ;; get n (lit "articles")) ;;
    displayNewsData articles
  else displayNoNews.

(** [fetchWeatherData()] *)
Definition fetchWeatherData : UI unit :=
  fun p =>
    (let city := trim (cityInput_value p) in
     _ <<- hideErrorMessage ;;
     _ <<- hideWeatherSection ;;
     _ <<- hideNewsSection ;;
     if negb (ToBoolean (VStr city)) then
       showErrorMessage (str "Please enter a city name")
     else
       _ <<- showLoading ;;
       try_catch_ui (fetchWeatherData_try city)
         (fun error =>
            _ <<- write (LogError "Error fetching data:" error) ;;
            _ <<- hideLoading ;;
            showErrorMessage
              (or_else (VStr (thrown_message error))
                 (str "Failed to fetch data. Please try again.")))) p.

End Script.

(** What the page receives when [/api/data] has answered with [resp]. *)
Definition served (resp : http_response) : fetched :=
  Json (status resp) (wire (body resp)).

(** *** Vocabulary of the statements about the page *)

(** A write that [displayWeatherData] may make. *)
Definition weather_write (op : dom_op) : bool :=
  match op with
  | SetTextContent id _ =>
      existsb (String.eqb id)
        ["cityName"; "countryCode"; "temperature"; "description"; "feelsLike";
         "windSpeed"; "humidity"; "pressure"; "rainVolume"; "coordinates"]
  | SetSrc id _ | SetAlt id _ => String.eqb id "weatherIcon"
  | SetDisplay id d => String.eqb id "weatherSection" && String.eqb d "block"
  | _ => false
  end.

(** A write that [displayNewsData] or [displayNoNews] may make. *)
Definition news_write (op : dom_op) : bool :=
  match op with
  | SetInnerHTML id _ | AppendChild id _ => String.eqb id "newsArticles"
  | SetDisplay id d => String.eqb id "newsSection" && String.eqb d "block"
  | _ => false
  end.

(** A write of one of the display functions. *)
Definition display_write (op : dom_op) : bool :=
  weather_write op || news_write op.

(** The cards of the articles up to the first whose card fails, and that
    failure. *)
Fixpoint cards_until_failure (host : Host) (l : list value)
  : list element * option exn :=
  match l with
  | [] => ([], None)
  | a :: l' =>
      match createNewsCard host a with
      | Ok c =>
          let (cs, failure) := cards_until_failure host l' in
          (c :: cs, failure)
      | Throw e => ([], Some e)
      end
  end.

(** *** Example pages *)

(** The whole number m * 2^e, when it is one. *)
Definition whole (m : positive) (e : Z) : option N :=
  if 0 <=? e then Some (Z.to_N (Z.pos m * 2 ^ e))
  else if Z.pos m mod 2 ^ (- e) =? 0 then Some (Z.to_N (Z.pos m / 2 ^ (- e)))
  else None.

(** A browser for the examples. It writes the whole numbers as JavaScript
    writes them below 10^21; the examples convert no other number to text,
    read no number out of a string and format no date but a missing one. *)
Definition example_browser : Host :=
  {| NumberToString := fun x =>
       match x with
       | S754_zero _ => lit "0"
       | S754_infinity false => lit "Infinity"
       | S754_infinity true => lit "-Infinity"
       | S754_nan => lit "NaN"
       | S754_finite s m e =>
           match whole m e with
           | Some n => (if s then lit "-" else []) ++ digits n
           | None => lit "NaN"
           end
       end;
     StringToNumber := fun _ => S754_nan;
     toLocaleDateString := fun _ => lit "Invalid Date" |}.

(** A page that reaches no server. *)
Definition offline : jsstring -> fetched :=
  fun _ => NetworkError (lit "Failed to fetch").

(** A page whose server answers one URL with [resp]. *)
Definition answering (url : string) (resp : http_response)
  : jsstring -> fetched :=
  fun u => if jsstring_eqb u (lit url) then served resp else offline u.

(** Three spaces typed into the city field. *)
Definition blank_page : page :=
  {| cityInput_value := lit "   "; fetch := offline |}.

Definition london_offline_page : page :=
  {| cityInput_value := lit " London "; fetch := offline |}.

(** The answer of [/api/data] for [london_calm] when the news provider
    fails. *)
Definition london_calm_answer : http_response :=
  {| status := 200;
     body := obj [("weather", london_calm_report);
                  ("news", newsData_unavailable)] |}.

Definition london_page : page :=
  {| cityInput_value := lit " London ";
     fetch := answering "/api/data?city=London" london_calm_answer |}.

(** What [displayWeatherData] writes for [london_calm_report]. *)
Definition london_calm_writes : list dom_op :=
  [SetTextContent "cityName" (str "London");
   SetTextContent "countryCode" (str "GB");
   SetTextContent "temperature" (VStr (lit "15" ++ [176%N] ++ lit "C"));
   SetTextContent "description" (str "clear sky");
   SetTextContent "feelsLike" (VStr (lit "14" ++ [176%N] ++ lit "C"));
   SetTextContent "windSpeed" (str "0 m/s");
   SetTextContent "humidity" (str "65%");
   SetTextContent "pressure" (str "1013 hPa");
   SetTextContent "rainVolume" (str "No rain");
   SetTextContent "coordinates" (str "51.51, -0.13");
   SetSrc "weatherIcon" (lit "https://openweathermap.org/img/wn/01d@2x.png");
   SetAlt "weatherIcon" (str "clear sky");
   SetDisplay "weatherSection" "block"].

(** The answer of [/api/data] for a place the weather provider does not
    know, and the page that receives it. *)
Definition city_not_found : http_response :=
  {| status := 404;
     body := obj [("error", str "City not found");
                  ("message",
                   str "Please check the city name and try again")] |}.

Definition unknown_place_page : page :=
  {| cityInput_value := lit "UnknownPlace123";
     fetch := answering "/api/data?city=UnknownPlace123" city_not_found |}.

(** * Properties *)

(** ** Rounding *)

Lemma number_of_pos_shape (s : bool) (p : positive) :
  exists m e, number_of_pos s p = S754_finite s m e /\
              e <= 0 /\ Z.pos m = Z.pos p * 2 ^ (- e).
Proof.
  unfold number_of_pos, shl_align.
  destruct (Z.pos (digits2_pos p) - prec - 0) as [|d|d] eqn:E.
  - exists p, 0. repeat split; [lia | simpl; lia].
  - exists p, 0. repeat split; [lia | simpl; lia].
  - exists (Pos.iter xO p d), (Z.pos (digits2_pos p) - prec).
    repeat split; [lia |].
    replace (- (Z.pos (digits2_pos p) - prec)) with (Z.pos d) by lia.
    change (Pos.iter xO p d) with (shift_pos d p).
    rewrite shift_pos_correct. rewrite Z.pow_pos_fold. lia.
Qed.

Lemma two_power_pos_id (k : Z) : 0 <= k -> Z.pos (Z.to_pos (2 ^ k)) = 2 ^ k.
Proof.
  intros H. apply Z2Pos.id. apply Z.pow_pos_nonneg; lia.
Qed.

Lemma number_of_Z_value (n : Z) :
  exists q, number_to_Q (number_of_Z n) = Some q /\ (q == inject_Z n)%Q.
Proof.
  assert (P : forall s p, exists q,
             number_to_Q (number_of_pos s p) = Some q /\
             (q == inject_Z (signed s p))%Q).
  { intros s p. destruct (number_of_pos_shape s p) as (m & e & -> & He & Hm).
    unfold number_to_Q. destruct (0 <=? e) eqn:E.
    - apply Z.leb_le in E. assert (e = 0) by lia. subst e.
      eexists; split; [reflexivity |].
      simpl in Hm. unfold signed in *. destruct s; simpl; unfold Qeq; simpl; lia.
    - eexists; split; [reflexivity |].
      unfold Qeq; simpl. rewrite two_power_pos_id by lia.
      unfold signed. destruct s; lia. }
  destruct n as [|p|p]; simpl.
  - exists (0 # 1)%Q. split; reflexivity.
  - apply (P false p).
  - apply (P true p).
Qed.

Lemma round_half_up_bounds (sm e : Z) :
  e < 0 ->
  (2 * round_half_up sm e - 1) * 2 ^ (- e) <= 2 * sm
  /\ 2 * sm < (2 * round_half_up sm e + 1) * 2 ^ (- e).
Proof.
  intros He. unfold round_half_up.
  assert (Hp : 0 < 2 ^ (- e)) by (apply Z.pow_pos_nonneg; lia).
  replace (1 - e) with (Z.succ (- e)) by lia.
  rewrite Z.pow_succ_r by lia.
  set (k := 2 ^ (- e)) in *.
  pose proof (Z.div_mod (2 * sm + k) (2 * k) ltac:(lia)) as D.
  pose proof (Z.mod_pos_bound (2 * sm + k) (2 * k) ltac:(lia)) as B.
  set (n := (2 * sm + k) / (2 * k)) in *.
  nia.
Qed.

Lemma Math_round_number_nearest (x : number) (q : Q) :
  number_to_Q x = Some q ->
  exists (n : Z) (r : Q),
    number_to_Q (Math_round_number x) = Some r /\ (r == inject_Z n)%Q
    /\ (inject_Z n - (1 # 2) <= q)%Q /\ (q < inject_Z n + (1 # 2))%Q.
Proof.
  destruct x as [s | s | | s m e]; simpl; try discriminate.
  - intros [= <-]. exists 0, (0 # 1)%Q. repeat split; try reflexivity.
    + unfold Qle; simpl; lia.
  - destruct (0 <=? e) eqn:E.
    + intros [= <-]. exists (signed s m * 2 ^ e), (inject_Z (signed s m * 2 ^ e)).
      simpl. rewrite E. repeat split; try reflexivity.
      * unfold Qle, Qminus, Qplus, Qopp, inject_Z; simpl; lia.
      * unfold Qlt, Qplus, inject_Z; simpl; lia.
    + intros [= <-]. apply Z.leb_gt in E.
      destruct (round_half_up_bounds (signed s m) e E) as [Lo Hi].
      set (n := round_half_up (signed s m) e) in *.
      assert (Q1 : (inject_Z n - (1 # 2) <= signed s m # Z.to_pos (2 ^ (- e)))%Q).
      { unfold Qle, Qminus, Qplus, Qopp, inject_Z; simpl.
        rewrite two_power_pos_id by lia. lia. }
      assert (Q2 : (signed s m # Z.to_pos (2 ^ (- e)) < inject_Z n + (1 # 2))%Q).
      { unfold Qlt, Qplus, inject_Z; simpl.
        rewrite two_power_pos_id by lia. lia. }
      destruct (n =? 0) eqn:N.
      * apply Z.eqb_eq in N. exists n, (0 # 1)%Q.
        repeat split; auto. rewrite N. reflexivity.
      * destruct (number_of_Z_value n) as (r & Hr & Hq).
        exists n, r. repeat split; auto.
Qed.

Lemma bind_Ok {A B : Type} (m : result A) (f : A -> result B) (b : B) :
  bind m f = Ok b -> exists a, m = Ok a /\ f a = Ok b.
Proof.
  destruct m as [a | e]; simpl; [eauto | discriminate].
Qed.

Ltac bind_inv H :=
  let a := fresh "v" in
  let Ha := fresh "E" in
  apply bind_Ok in H; destruct H as (a & Ha & H).

Lemma get_field (v : value) (k : string) (x : value) :
  plain_key k = true -> get v (lit k) = Ok x -> x = field v k.
Proof.
  unfold plain_key, get, field. intros P.
  apply andb_prop in P. destruct P as [P1 P2].
  apply negb_true_iff in P1.
  destruct v; try discriminate; rewrite ?P1;
    destruct (index_of_key (lit k)); try discriminate;
    try (intros [= <-]; reflexivity).
  destruct (lookup (lit k) o); intros [= <-]; reflexivity.
Qed.

Lemma get_opt_field (v : value) (k : string) (x : value) :
  plain_key k = true -> get_opt v (lit k) = Ok x -> x = field v k.
Proof.
  unfold get_opt. intros P. destruct (is_nullish v) eqn:N.
  - intros [= <-]. destruct v; try discriminate; reflexivity.
  - apply get_field; assumption.
Qed.

Lemma processedData_shape (host : Host) (weatherData r : value) :
  processedData host weatherData = Ok r ->
  exists temp temperature description lat lon feels_like feelsLike
         country name humidity pressure icon,
    path weatherData ["main"; "temp"] = Ok temp
    /\ Math_round host temp = Ok temperature
    /\ path weatherData ["main"; "feels_like"] = Ok feels_like
    /\ Math_round host feels_like = Ok feelsLike
    /\ r = obj [("temperature", temperature);
                ("description", description);
                ("coordinates", obj [("lat", lat); ("lon", lon)]);
                ("feelsLike", feelsLike);
                ("windSpeed",
                 or_else (field (field weatherData "wind") "speed")
                   (VNum (number_of_Z 0)));
                ("countryCode", country);
                ("rainVolume",
                 or_else (field (field weatherData "rain") "3h")
                   (VNum (number_of_Z 0)));
                ("city", name);
                ("humidity", humidity);
                ("pressure", pressure);
                ("icon", icon)].
Proof.
  unfold processedData. intros H.
  repeat bind_inv H. injection H as <-.
  repeat match goal with
         | G : get _ (lit _) = Ok _ |- _ =>
             apply get_field in G; [subst | reflexivity]
         | G : get_opt _ (lit _) = Ok _ |- _ =>
             apply get_opt_field in G; [subst | reflexivity]
         end.
  repeat eexists; eassumption.
Qed.

(** *** Errors thrown by the shaping code carry no upstream response *)

Lemma bind_Throw {A B : Type} (m : result A) (f : A -> result B) (e : exn) :
  bind m f = Throw e -> m = Throw e \/ exists a, m = Ok a /\ f a = Throw e.
Proof.
  destruct m as [a | e']; simpl; [eauto | intros [= ->]; auto].
Qed.

Lemma get_Throw (v : value) (k : jsstring) (e : exn) :
  get v k = Throw e -> response_status e = None.
Proof.
  unfold get. destruct v; try discriminate;
    try (intros [= <-]; reflexivity).
  - destruct (jsstring_eqb k (lit "length")); [discriminate |].
    destruct (index_of_key k) as [i |]; [| discriminate].
    destruct (nth_error s i); discriminate.
  - destruct (jsstring_eqb k (lit "length")); [discriminate |].
    destruct (index_of_key k) as [i |]; [| discriminate].
    destruct (nth_error l i); discriminate.
  - destruct (lookup k o); discriminate.
Qed.

Lemma path_Throw (ks : list string) (r : result value) (e : exn) :
  fold_left (fun r k => x <- r ;; get x (lit k)) ks r = Throw e ->
  (forall e', r = Throw e' -> response_status e' = None) ->
  response_status e = None.
Proof.
  revert r. induction ks as [| k ks IH]; simpl; intros r H Hr.
  - apply Hr. exact H.
  - apply (IH _ H). intros e' He'.
    apply bind_Throw in He'. destruct He' as [He' | (a & _ & He')].
    + apply Hr. exact He'.
    + apply (get_Throw _ _ _ He').
Qed.

Lemma path_from_value_Throw (v : value) (ks : list string) (e : exn) :
  path v ks = Throw e -> response_status e = None.
Proof.
  unfold path. intros H. apply (path_Throw ks (Ok v) e H). discriminate.
Qed.

Lemma mapM_Throw {A B : Type} (f : A -> result B) (l : list A) (e : exn) :
  mapM f l = Throw e -> exists a, In a l /\ f a = Throw e.
Proof.
  induction l as [| a l IH]; simpl; [discriminate |].
  intros H. apply bind_Throw in H. destruct H as [H | (b & _ & H)].
  - exists a. auto.
  - apply bind_Throw in H. destruct H as [H | (bs & _ & H)]; [| discriminate].
    destruct (IH H) as (a' & Hin & Ha'). exists a'. auto.
Qed.

Lemma call_map_Throw (callee : string) (v : value)
  (f : value -> result value) (e : exn) :
  (forall a e', f a = Throw e' -> response_status e' = None) ->
  call_map callee v f = Throw e -> response_status e = None.
Proof.
  intros Hf. unfold call_map.
  destruct v; try (intros [= <-]; reflexivity).
  intros H. apply bind_Throw in H. destruct H as [H | (l' & _ & H)].
  - apply mapM_Throw in H. destruct H as (a & _ & Ha). exact (Hf a e Ha).
  - discriminate.
Qed.

Ltac throw_inv H :=
  repeat (apply bind_Throw in H;
          destruct H as [H | (? & _ & H)];
          [ first [ exact (get_Throw _ _ _ H)
                  | exact (path_from_value_Throw _ _ _ H) ] | ]).

Lemma news_article_Throw (a : value) (e : exn) :
  news_article a = Throw e -> response_status e = None.
Proof.
  unfold news_article. intros H. throw_inv H. discriminate H.
Qed.

Lemma processedNews_Throw (newsData : value) (e : exn) :
  processedNews newsData = Throw e -> response_status e = None.
Proof.
  unfold processedNews. intros H.
  apply bind_Throw in H. destruct H as [H | (? & _ & H)];
    [exact (get_Throw _ _ _ H) |].
  apply bind_Throw in H. destruct H as [H | (? & _ & H)];
    [exact (get_Throw _ _ _ H) |].
  apply bind_Throw in H. destruct H as [H | (? & _ & H)]; [| discriminate H].
  apply (call_map_Throw _ _ _ _ news_article_Throw H).
Qed.

(** *** Articles on the wire *)

Lemma wire_obj (o : list (jsstring * value)) :
  wire (VObj o) = VObj (wire_props o).
Proof. reflexivity. Qed.

Lemma lookup_wire_props_cons (k k' : jsstring) (v : value)
  (o : list (jsstring * value)) :
  lookup k (wire_props ((k', v) :: o))
  = if jsstring_eqb k k' then
      match v with
      | VUndefined => lookup k (wire_props o)
      | _ => Some (wire v)
      end
    else lookup k (wire_props o).
Proof.
  destruct v; unfold wire_props; simpl;
    destruct (jsstring_eqb k k'); reflexivity.
Qed.

Lemma get_obj (o : list (jsstring * value)) (k : string) :
  get (VObj o) (lit k) = Ok (field (VObj o) k).
Proof.
  unfold get, field. destruct (lookup (lit k) o); reflexivity.
Qed.

Lemma get_not_nullish (v x : value) (k : jsstring) :
  get v k = Ok x -> is_nullish v = false.
Proof.
  destruct v; try reflexivity; discriminate.
Qed.

Lemma get_total (v : value) (k : string) :
  is_nullish v = false -> plain_key k = true ->
  get v (lit k) = Ok (field v k).
Proof.
  intros N P. destruct (get v (lit k)) as [x | e] eqn:E.
  - rewrite (get_field v k x P E). reflexivity.
  - destruct v; try discriminate N; unfold get in E;
      unfold plain_key in P; apply andb_prop in P; destruct P as [P1 P2];
      apply negb_true_iff in P1; rewrite ?P1 in E;
      try discriminate E;
      destruct (index_of_key (lit k)); try discriminate P2; try discriminate E.
    destruct (lookup (lit k) o); discriminate E.
Qed.

Lemma or_else_missing (v placeholder : value) :
  missing v -> or_else (wire_prop v) placeholder = placeholder.
Proof.
  intros [-> | ->]; reflexivity.
Qed.

Lemma falsy_missing (v : value) :
  missing v -> ToBoolean (wire_prop v) = false.
Proof.
  intros [-> | ->]; reflexivity.
Qed.

Lemma field_wire_obj_cons (k k' : string) (v : value)
  (props : list (string * value)) :
  field (wire (obj ((k', v) :: props))) k
  = if jsstring_eqb (lit k) (lit k') then
      match v with
      | VUndefined => field (wire (obj props)) k
      | _ => wire v
      end
    else field (wire (obj props)) k.
Proof.
  unfold field, obj. cbn [map fst snd].
  rewrite !wire_obj, lookup_wire_props_cons.
  destruct (jsstring_eqb (lit k) (lit k')); [destruct v |]; reflexivity.
Qed.

Lemma field_wire_obj_nil (k : string) :
  field (wire (obj [])) k = VUndefined.
Proof. reflexivity. Qed.

Ltac wire_field :=
  repeat (rewrite field_wire_obj_cons; simpl (jsstring_eqb _ _); cbv iota);
  rewrite ?field_wire_obj_nil.

Lemma news_article_shape (article source : value) :
  path article ["source"; "name"] = Ok source ->
  news_article article
  = Ok (obj [("title", field article "title");
             ("description", field article "description");
             ("url", field article "url");
             ("publishedAt", field article "publishedAt");
             ("source", source);
             ("imageUrl", field article "urlToImage")]).
Proof.
  intros Hs. unfold news_article. rewrite Hs.
  assert (N : is_nullish article = false).
  { unfold path in Hs. cbn in Hs. bind_inv Hs.
    exact (get_not_nullish _ _ _ E). }
  rewrite !get_total by (exact N || reflexivity).
  reflexivity.
Qed.

Lemma createNewsCard_received (host : Host) (t d u p s i : value) :
  createNewsCard host
    (wire (obj [("title", t); ("description", d); ("url", u);
                ("publishedAt", p); ("source", s); ("imageUrl", i)]))
  = (image <- (if ToBoolean (wire_prop i)
               then image_markup host (wire_prop i) (wire_prop t)
               else Ok []) ;;
     date <- ToPrimitive host (wire_prop p) ;;
     markup <- card_markup host (VStr image)
                 (or_else (wire_prop s) (str "Unknown Source"))
                 (or_else (wire_prop t) (str "No title available"))
                 (or_else (wire_prop d) (str "No description available"))
                 (VStr (toLocaleDateString host date)) (wire_prop u) ;;
     Ok {| className := lit "news-card"; innerHTML := markup |}).
Proof.
  unfold createNewsCard.
  set (a := obj _). rewrite (wire_obj _ : wire a = _).
  rewrite !get_obj. rewrite <- (wire_obj _ : wire a = _). subst a.
  replace (field (wire (obj [("title", t); ("description", d); ("url", u);
             ("publishedAt", p); ("source", s); ("imageUrl", i)])) "imageUrl")
    with (wire_prop i) by (wire_field; reflexivity).
  replace (field (wire (obj [("title", t); ("description", d); ("url", u);
             ("publishedAt", p); ("source", s); ("imageUrl", i)])) "title")
    with (wire_prop t) by (wire_field; reflexivity).
  replace (field (wire (obj [("title", t); ("description", d); ("url", u);
             ("publishedAt", p); ("source", s); ("imageUrl", i)])) "description")
    with (wire_prop d) by (wire_field; reflexivity).
  replace (field (wire (obj [("title", t); ("description", d); ("url", u);
             ("publishedAt", p); ("source", s); ("imageUrl", i)])) "url")
    with (wire_prop u) by (wire_field; reflexivity).
  replace (field (wire (obj [("title", t); ("description", d); ("url", u);
             ("publishedAt", p); ("source", s); ("imageUrl", i)])) "publishedAt")
    with (wire_prop p) by (wire_field; reflexivity).
  replace (field (wire (obj [("title", t); ("description", d); ("url", u);
             ("publishedAt", p); ("source", s); ("imageUrl", i)])) "source")
    with (wire_prop s) by (wire_field; reflexivity).
  cbn [bind]. reflexivity.
Qed.

Lemma mapM_Ok_Forall2 {A B : Type} (f : A -> result B) (l : list A)
  (l' : list B) :
  mapM f l = Ok l' -> Forall2 (fun a b => f a = Ok b) l l'.
Proof.
  revert l'. induction l as [| a l IH]; simpl; intros l' H.
  - injection H as <-. constructor.
  - bind_inv H. bind_inv H. injection H as <-.
    constructor; [assumption | apply IH; assumption].
Qed.

Lemma processedNews_shape (newsData r : value) :
  processedNews newsData = Ok r ->
  exists upstream_articles articles,
    field newsData "articles" = VArr upstream_articles
    /\ mapM news_article upstream_articles = Ok articles
    /\ r = obj [("totalResults", field newsData "totalResults");
                ("articles", VArr articles)].
Proof.
  unfold processedNews. intros H.
  bind_inv H. bind_inv H. bind_inv H. injection H as <-.
  apply get_field in E; [| reflexivity].
  apply get_field in E0; [| reflexivity].
  unfold call_map in E1. destruct v0; try discriminate E1.
  bind_inv E1. injection E1 as <-.
  exists l, v0. subst. auto.
Qed.

Lemma mapM_Forall_Ok {A B : Type} (f : A -> result B) (l : list A) :
  Forall (fun a => exists b, f a = Ok b) l -> exists l', mapM f l = Ok l'.
Proof.
  induction 1 as [| a l (b & Hb) _ (l' & Hl')]; simpl.
  - exists []. reflexivity.
  - exists (b :: l'). rewrite Hb, Hl'. reflexivity.
Qed.

Lemma processedNews_total (o : list (jsstring * value)) (l : list value) :
  lookup (lit "articles") o = Some (VArr l) ->
  Forall (fun a => exists s, path a ["source"; "name"] = Ok s) l ->
  exists r, processedNews (VObj o) = Ok r.
Proof.
  intros Ha Hl. unfold processedNews.
  rewrite !get_obj. cbn [bind]. unfold field. rewrite Ha.
  unfold call_map.
  destruct (mapM_Forall_Ok news_article l) as (l' & Hl').
  - apply (Forall_impl _ (P := fun a => exists s, path a ["source"; "name"] = Ok s));
      [| exact Hl].
    intros a (s & Hs). eexists. exact (news_article_shape a s Hs).
  - rewrite Hl'. eexists. reflexivity.
Qed.


Lemma weatherUrl_not_newsUrl
  (host : Host) (env : process_env) (city q : value) (url : jsstring) :
  weatherUrl host env city = Ok url -> newsUrl host env q <> Ok url.
Proof.
  unfold weatherUrl, newsUrl. intros H N.
  bind_inv H. bind_inv N.
  injection H as <-. injection N as N.
  cbn in N. discriminate N.
Qed.

(** A rejected weather request in [/api/data]: every rejection other than a
    404, an unanswered request included, is answered 500. *)
Lemma data_weather_rejected
  (host : Host) (env : process_env) (req : request) (w : world)
  (url : jsstring) (response : option Z) (message : jsstring) :
  ToBoolean (query_param req "city") = true ->
  weatherUrl host env (query_param req "city") = Ok url ->
  w url = Rejects response message ->
  response <> Some 404 ->
  run (get_api_data host env req) w
  = (Ok {| status := 500;
           body := obj [("error", str "Failed to fetch data");
                        ("message", VStr message)] |},
     [HttpGet url; ConsoleError (lit "Combined API Error:") message]).
Proof.
  intros Hcity Hurl Hw H404.
  unfold run, get_api_data, try_catch, bindM, eval, axios_get.
  rewrite Hcity, Hurl. cbn. rewrite Hw. cbn.
  unfold status_is. cbn.
  destruct response as [s |]; [| reflexivity].
  destruct (s =? 404) eqn:E; [| reflexivity].
  apply Z.eqb_eq in E. subst s. contradiction H404. reflexivity.
Qed.

(** ** The properties of the specification *)


(** C2, where the code departs from it. With an invalid OpenWeather key the
    provider answers 401: [/api/weather] passes that on as 401 "Invalid API
    key", while [/api/data], whose [catch] tests for 404 only, answers 500
    "Failed to fetch data". *)
Theorem data_weather_unauthorized_answers_500 :
  run (get_api_weather example_host example_env london_request)
    (providers (Rejects (Some 401) (failed_with "401")) unreachable)
  = (Ok {| status := 401;
           body := obj [("error", str "Invalid API key");
                        ("message",
                         str "Please check your OpenWeather API key")] |},
     [HttpGet london_weatherUrl;
      ConsoleError (lit "Weather API Error:") (failed_with "401")])
  /\ run (get_api_data example_host example_env london_request)
       (providers (Rejects (Some 401) (failed_with "401")) unreachable)
     = (Ok {| status := 500;
              body := obj [("error", str "Failed to fetch data");
                           ("message", VStr (failed_with "401"))] |},
        [HttpGet london_weatherUrl;
         ConsoleError (lit "Combined API Error:") (failed_with "401")]).
Proof.
  split; vm_compute; reflexivity.
Qed.

(** *** The markup of a card *)

Lemma template_app (host : Host) (ps qs : list value) (m : jsstring) :
  template host (ps ++ qs) = Ok m ->
  exists a b,
    template host ps = Ok a /\ template host qs = Ok b /\ m = a ++ b.
Proof.
  revert m. induction ps as [| p ps IH]; intros m H.
  - exists [], m. auto.
  - cbn [app template] in H. bind_inv H. bind_inv H. injection H as <-.
    destruct (IH _ E0) as (a & b & Ha & Hb & ->).
    exists (v ++ a), b. cbn [template]. rewrite E, Ha. cbn [bind].
    split; [reflexivity |]. split; [exact Hb |]. apply app_assoc.
Qed.

Lemma template_slice (host : Host) (n k : nat) (ps : list value)
  (m : jsstring) :
  template host ps = Ok m ->
  exists a b c,
    template host (firstn n ps) = Ok a
    /\ template host (firstn k (skipn n ps)) = Ok b
    /\ m = a ++ b ++ c.
Proof.
  intros H. rewrite <- (firstn_skipn n ps) in H.
  apply template_app in H. destruct H as (a & r & Ha & Hr & ->).
  rewrite <- (firstn_skipn k (skipn n ps)) in Hr.
  apply template_app in Hr. destruct Hr as (b & c & Hb & _ & ->).
  exists a, b, c. auto.
Qed.

Lemma card_markup_content
  (host : Host) (image : jsstring)
  (source title description date url : value) (markup : jsstring) :
  card_markup host (VStr image) source title description date url = Ok markup ->
  exists t d,
    ToString host title = Ok t
    /\ ToString host description = Ok d
    /\ (exists rest, markup = card_opening image ++ rest)
    /\ contains (title_element t) markup
    /\ contains (description_element d) markup.
Proof.
  intros H. unfold card_markup in H.
  destruct (template_slice host 0 9 _ _ H) as (a0 & b0 & c0 & Ha0 & H0 & E0).
  destruct (template_slice host 18 7 _ _ H) as (a1 & b1 & c1 & _ & H1 & E1).
  destruct (template_slice host 26 7 _ _ H) as (a2 & b2 & c2 & _ & H2 & E2).
  cbn [firstn skipn template] in Ha0, H0, H1, H2.
  destruct (ToString host title) as [t |] eqn:Ht; [| discriminate H1].
  destruct (ToString host description) as [d |] eqn:Hd; [| discriminate H2].
  injection Ha0 as <-.
  assert (Hb0 : b0 = card_opening image)
    by (cbn in H0; injection H0 as <-; reflexivity).
  assert (Hb1 : b1 = lit "            " ++ title_element t)
    by (cbn in H1; injection H1 as <-; reflexivity).
  assert (Hb2 : b2 = lit "            " ++ description_element d)
    by (cbn in H2; injection H2 as <-; reflexivity).
  exists t, d. split; [reflexivity |]. split; [reflexivity |].
  split; [| split].
  - exists c0. rewrite E0, Hb0. reflexivity.
  - exists (a1 ++ lit "            "), c1.
    rewrite E1, Hb1, <- !app_assoc. reflexivity.
  - exists (a2 ++ lit "            "), c2.
    rewrite E2, Hb2, <- !app_assoc. reflexivity.
Qed.

(** *** Cards of articles whose fields are primitive *)

Lemma ToString_primitive (host : Host) (v : value) :
  primitive v = true -> exists s, ToString host v = Ok s.
Proof.
  destruct v as [| | [|] | x | s | l | o]; try discriminate;
    intros _; eexists; reflexivity.
Qed.

Lemma template_primitive (host : Host) (ps : list value) :
  forallb primitive ps = true -> exists m, template host ps = Ok m.
Proof.
  induction ps as [| p ps IH]; intros H; [eexists; reflexivity |].
  cbn [forallb] in H. apply andb_prop in H. destruct H as [Hp Hps].
  destruct (ToString_primitive host p Hp) as (a & Ha).
  destruct (IH Hps) as (b & Hb).
  exists (a ++ b). cbn [template]. rewrite Ha, Hb. reflexivity.
Qed.

Lemma wire_prop_primitive (v : value) :
  primitive v = true -> primitive (wire_prop v) = true.
Proof.
  destruct v as [| | b | [| | |] | s | l | o]; try discriminate; reflexivity.
Qed.

Lemma or_else_primitive (a b : value) :
  primitive a = true -> primitive b = true -> primitive (or_else a b) = true.
Proof.
  intros Ha Hb. unfold or_else. destruct (ToBoolean a); assumption.
Qed.

Lemma createNewsCard_primitive (host : Host) (t d u p s i : value) :
  primitive t = true -> primitive d = true -> primitive u = true ->
  primitive p = true -> primitive s = true -> primitive i = true ->
  exists card,
    createNewsCard host
      (wire (obj [("title", t); ("description", d); ("url", u);
                  ("publishedAt", p); ("source", s); ("imageUrl", i)]))
    = Ok card.
Proof.
  intros Ht Hd Hu Hp Hs Hi. rewrite createNewsCard_received.
  apply wire_prop_primitive in Ht, Hd, Hu, Hp, Hs, Hi.
  assert (Himage : exists image,
            (if ToBoolean (wire_prop i)
             then image_markup host (wire_prop i) (wire_prop t)
             else Ok []) = Ok image).
  { destruct (ToBoolean (wire_prop i)); [| eexists; reflexivity].
    apply template_primitive. cbn [forallb]. rewrite Hi, Ht. reflexivity. }
  destruct Himage as (image & ->). cbn [bind].
  assert (Hdate : ToPrimitive host (wire_prop p) = Ok (wire_prop p)).
  { destruct (wire_prop p); try discriminate Hp; reflexivity. }
  rewrite Hdate. cbn [bind].
  assert (Hmarkup : exists markup,
            card_markup host (VStr image)
              (or_else (wire_prop s) (str "Unknown Source"))
              (or_else (wire_prop t) (str "No title available"))
              (or_else (wire_prop d) (str "No description available"))
              (VStr (toLocaleDateString host (wire_prop p))) (wire_prop u)
            = Ok markup).
  { apply template_primitive. cbn [forallb].
    rewrite Hu, !or_else_primitive by (assumption || reflexivity).
    reflexivity. }
  destruct Hmarkup as (markup & ->). eexists. reflexivity.
Qed.

(** C3, as the code has it. An upstream article whose source can be read is
    shaped whatever becomes of its title, description and image, by
    [/api/news] and by [/api/data] alike. The three are passed on as they
    are: one that is missing upstream reads the same in the response, and
    nothing is put in its place. A payload whose articles all have a
    readable source is shaped as a whole, whatever optional fields they
    lack. The placeholders belong to the page: in the card that
    [createNewsCard] builds from the article it receives, "No title
    available" is the text of the title element when the title is missing,
    "No description available" that of the description element when the
    description is missing, and nothing stands where the [img] tag goes
    when the image is missing; the card is built whenever the fields of the
    article are primitive values, missing ones included. *)
Theorem news_article_optional_fields
  (host : Host) (article source : value)
  (Hsource : path article ["source"; "name"] = Ok source) :
  let title := field article "title" in
  let description := field article "description" in
  let image := field article "urlToImage" in
  let shaped :=
    obj [("title", title);
         ("description", description);
         ("url", field article "url");
         ("publishedAt", field article "publishedAt");
         ("source", source);
         ("imageUrl", image)] in
  news_article article = Ok shaped
  /\ data_article article = Ok shaped
  /\ (missing title -> field (wire shaped) "title" = title)
  /\ (missing description -> field (wire shaped) "description" = description)
  /\ (missing image -> field (wire shaped) "imageUrl" = image)
  /\ (forall (o : list (jsstring * value)) (l : list value),
        lookup (lit "articles") o = Some (VArr l) ->
        Forall (fun a => exists s, path a ["source"; "name"] = Ok s) l ->
        exists r, processedNews (VObj o) = Ok r)
  /\ (forall card,
        createNewsCard host (wire shaped) = Ok card ->
        (missing title ->
         contains (title_element (lit "No title available")) (innerHTML card))
        /\ (missing description ->
            contains (description_element (lit "No description available"))
              (innerHTML card))
        /\ (missing image ->
            exists rest, innerHTML card = card_opening [] ++ rest))
  /\ (primitive title = true -> primitive description = true ->
      primitive image = true -> primitive source = true ->
      primitive (field article "url") = true ->
      primitive (field article "publishedAt") = true ->
      exists card, createNewsCard host (wire shaped) = Ok card).
Proof.
  intros title description image shaped.
  split; [exact (news_article_shape article source Hsource) |].
  split; [exact (news_article_shape article source Hsource) |].
  split; [intros [H | H]; unfold shaped; wire_field; rewrite H; reflexivity |].
  split; [intros [H | H]; unfold shaped; wire_field; rewrite H; reflexivity |].
  split; [intros [H | H]; unfold shaped; wire_field; rewrite H; reflexivity |].
  split; [exact processedNews_total |].
  split.
  - intros card Hcard. unfold shaped in Hcard.
    rewrite createNewsCard_received in Hcard.
    bind_inv Hcard. bind_inv Hcard. bind_inv Hcard.
    injection Hcard as <-. cbn [innerHTML].
    destruct (card_markup_content _ _ _ _ _ _ _ _ E1)
      as (t & d & Ht & Hd & Hopening & Htitle & Hdescription).
    split; [| split].
    + intros Hmissing. rewrite (or_else_missing _ _ Hmissing) in Ht.
      injection Ht as <-. exact Htitle.
    + intros Hmissing. rewrite (or_else_missing _ _ Hmissing) in Hd.
      injection Hd as <-. exact Hdescription.
    + intros Hmissing. rewrite (falsy_missing _ Hmissing) in E.
      injection E as <-. exact Hopening.
  - intros Ht Hd Hi Hs Hu Hp.
    exact (createNewsCard_primitive host _ _ _ _ _ _ Ht Hd Hu Hp Hs Hi).
Qed.

(** C4. When the weather provider answers 404 to [/api/data], the response is
    404 with error "City not found"; the only outbound request of the handler
    is the weather one, and no news URL is among its requests. *)
Theorem data_city_not_found_skips_news
  (host : Host) (env : process_env) (req : request) (w : world)
  (url message : jsstring)
  (Hcity : ToBoolean (query_param req "city") = true)
  (Hurl : weatherUrl host env (query_param req "city") = Ok url)
  (Hw : w url = Rejects (Some 404) message) :
  exists t,
    run (get_api_data host env req) w
    = (Ok {| status := 404;
             body := obj [("error", str "City not found");
                          ("message",
                           str "Please check the city name and try again")] |},
       t)
    /\ outbound t = [url]
    /\ forall q nurl, newsUrl host env q = Ok nurl -> ~ In nurl (outbound t).
Proof.
  exists [HttpGet url; ConsoleError (lit "Combined API Error:") message].
  split; [| split].
  - unfold run, get_api_data, try_catch, bindM, eval, axios_get.
    rewrite Hcity, Hurl. cbn. rewrite Hw. reflexivity.
  - reflexivity.
  - intros q nurl Hn [H | []]. subst nurl.
    exact (weatherUrl_not_newsUrl host env _ q url Hurl Hn).
Qed.

(** C5. In the report of [/api/weather], [temperature] and [feelsLike] are
    [Math.round] of the upstream [main.temp] and [main.feels_like], and
    [Math.round] of a number is an integer nearest to it; 14.6 goes to 15 and
    14.4 to 14, and the London payload (15.3, feels like 14.1) gives
    temperature 15 and feelsLike 14. *)
Theorem weather_report_rounds_temperatures
  (host : Host) (weatherData r : value) (x y : number)
  (Hr : processedData host weatherData = Ok r)
  (Hx : path weatherData ["main"; "temp"] = Ok (VNum x))
  (Hy : path weatherData ["main"; "feels_like"] = Ok (VNum y)) :
  field r "temperature" = VNum (Math_round_number x)
  /\ field r "feelsLike" = VNum (Math_round_number y)
  /\ rounds_to_nearest x (Math_round_number x)
  /\ rounds_to_nearest y (Math_round_number y)
  /\ Math_round_number (dec 14.6%float) = number_of_Z 15
  /\ Math_round_number (dec 14.4%float) = number_of_Z 14
  /\ (exists r', processedData host london = Ok r'
                 /\ field r' "temperature" = VNum (number_of_Z 15)
                 /\ field r' "feelsLike" = VNum (number_of_Z 14)).
Proof.
  destruct (processedData_shape host weatherData r Hr)
    as (temp & temperature & description & lat & lon & feels_like & feelsLike
        & country & name & humidity & pressure & icon
        & Htemp & Hround & Hfeels & Hround' & ->).
  rewrite Hx in Htemp. injection Htemp as Htemp. subst temp.
  rewrite Hy in Hfeels. injection Hfeels as Hfeels. subst feels_like.
  injection Hround as Hround. injection Hround' as Hround'.
  subst temperature feelsLike.
  split; [reflexivity |].
  split; [reflexivity |].
  split; [intros q Hq; apply Math_round_number_nearest; exact Hq |].
  split; [intros q Hq; apply Math_round_number_nearest; exact Hq |].
  split; [vm_compute; reflexivity |].
  split; [vm_compute; reflexivity |].
  eexists. split; [vm_compute; reflexivity |].
  split; vm_compute; reflexivity.
Qed.

(** C6. In the report of [/api/weather], [windSpeed] is 0 when the payload
    has no [wind.speed] and [rainVolume] is 0 when it has no [rain['3h']];
    an upstream value of zero gives the same 0. *)
Theorem weather_report_defaults_wind_and_rain
  (host : Host) (weatherData r : value)
  (Hr : processedData host weatherData = Ok r) :
  (field (field weatherData "wind") "speed" = VUndefined ->
   field r "windSpeed" = VNum (number_of_Z 0))
  /\ (field (field weatherData "rain") "3h" = VUndefined ->
      field r "rainVolume" = VNum (number_of_Z 0))
  /\ (forall s, field (field weatherData "wind") "speed" = VNum (S754_zero s) ->
                field r "windSpeed" = VNum (number_of_Z 0))
  /\ (forall s, field (field weatherData "rain") "3h" = VNum (S754_zero s) ->
                field r "rainVolume" = VNum (number_of_Z 0)).
Proof.
  destruct (processedData_shape host weatherData r Hr)
    as (temp & temperature & description & lat & lon & feels_like & feelsLike
        & country & name & humidity & pressure & icon & _ & _ & _ & _ & ->).
  split; [| split; [| split]].
  - intros H. cbn. rewrite H. reflexivity.
  - intros H. cbn. rewrite H. reflexivity.
  - intros s H. cbn. rewrite H. reflexivity.
  - intros s H. cbn. rewrite H. reflexivity.
Qed.

(** C9. The weather shaping written out in [/api/data] is the same function
    of the payload as the one in [/api/weather]. *)
Theorem processedWeather_is_processedData (host : Host) (weatherData : value) :
  processedWeather host weatherData = processedData host weatherData.
Proof.
  unfold processedWeather, processedData. reflexivity.
Qed.

(** C7. When the news provider's answer to [/api/news] is a failure: status
    429 gives 429 with error "API rate limit exceeded", status 401 gives 401
    with error "Invalid API key", and every other failure (another status, no
    answer at all, a payload that cannot be shaped) gives 500. *)
Theorem news_upstream_failure_statuses
  (host : Host) (env : process_env) (req : request) (w : world)
  (url : jsstring)
  (Hquery : ToBoolean (query_param req "city")
            || ToBoolean (query_param req "country") = true)
  (Hurl : newsUrl host env
            (or_else (query_param req "city") (query_param req "country"))
          = Ok url) :
  (forall message,
     w url = Rejects (Some 429) message ->
     run (get_api_news host env req) w
     = (Ok {| status := 429;
              body := obj [("error", str "API rate limit exceeded");
                           ("message", str "Please try again later")] |},
        [HttpGet url; ConsoleError (lit "News API Error:") message]))
  /\ (forall message,
        w url = Rejects (Some 401) message ->
        run (get_api_news host env req) w
        = (Ok {| status := 401;
                 body := obj [("error", str "Invalid API key");
                              ("message", str "Please check your News API key")] |},
           [HttpGet url; ConsoleError (lit "News API Error:") message]))
  /\ (forall response message,
        w url = Rejects response message ->
        response <> Some 401 -> response <> Some 429 ->
        run (get_api_news host env req) w
        = (Ok {| status := 500;
                 body := obj [("error", str "Failed to fetch news data");
                              ("message", VStr message)] |},
           [HttpGet url; ConsoleError (lit "News API Error:") message]))
  /\ (forall r e,
        w url = Resolves r ->
        processedNews (data r) = Throw e ->
        run (get_api_news host env req) w
        = (Ok {| status := 500;
                 body := obj [("error", str "Failed to fetch news data");
                              ("message", VStr (message_of e))] |},
           [HttpGet url; ConsoleError (lit "News API Error:") (message_of e)])).
Proof.
  assert (Hif : negb (ToBoolean (query_param req "city"))
                && negb (ToBoolean (query_param req "country")) = false).
  { rewrite <- negb_orb, Hquery. reflexivity. }
  split; [| split; [| split]].
  - intros message Hw.
    unfold run, get_api_news, try_catch, bindM, eval, axios_get.
    rewrite Hif, Hurl. cbn. rewrite Hw. reflexivity.
  - intros message Hw.
    unfold run, get_api_news, try_catch, bindM, eval, axios_get.
    rewrite Hif, Hurl. cbn. rewrite Hw. reflexivity.
  - intros response message Hw H401 H429.
    unfold run, get_api_news, try_catch, bindM, eval, axios_get.
    rewrite Hif, Hurl. cbn. rewrite Hw. cbn.
    unfold status_is. cbn.
    destruct response as [s |]; [| reflexivity].
    destruct (s =? 401) eqn:E1.
    { apply Z.eqb_eq in E1. subst s. contradiction H401. reflexivity. }
    destruct (s =? 429) eqn:E2.
    { apply Z.eqb_eq in E2. subst s. contradiction H429. reflexivity. }
    reflexivity.
  - intros r e Hw He.
    unfold run, get_api_news, try_catch, bindM, eval, axios_get.
    rewrite Hif, Hurl. cbn. rewrite Hw. rewrite He.
    unfold console_error, status_is.
    rewrite (processedNews_Throw _ _ He). reflexivity.
Qed.

(** C8. A request without its required parameter ([city] for [/api/weather]
    and [/api/data]; both [city] and [country] for [/api/news]) is answered
    400 with an [example] of usage, and the handler has done nothing else:
    its log is empty, so no request went out. *)
Theorem missing_parameter_is_answered_400
  (host : Host) (env : process_env) (req : request) (w : world)
  (Hcity : lookup (lit "city") (query req) = None) :
  run (get_api_weather host env req) w
  = (Ok {| status := 400;
           body := obj [("error", str "City parameter is required");
                        ("example", str "/api/weather?city=London")] |},
     [])
  /\ run (get_api_data host env req) w
     = (Ok {| status := 400;
              body := obj [("error", str "City parameter is required");
                           ("example", str "/api/data?city=London")] |},
        [])
  /\ (lookup (lit "country") (query req) = None ->
      run (get_api_news host env req) w
      = (Ok {| status := 400;
               body := obj [("error",
                             str "City or country parameter is required");
                            ("example",
                             str "/api/news?city=London or /api/news?country=GB")] |},
         [])).
Proof.
  split; [| split].
  - unfold run, get_api_weather, try_catch, query_param.
    rewrite Hcity. reflexivity.
  - unfold run, get_api_data, try_catch, query_param.
    rewrite Hcity. reflexivity.
  - intros Hcountry.
    unfold run, get_api_news, try_catch, query_param.
    rewrite Hcity, Hcountry. reflexivity.
Qed.

(** C10. When the news provider answers [/api/news] and the response is 200,
    the [articles] of the response are the upstream [articles] shaped one by
    one: as many, in the same order. The cap of five and the sort order are
    only written into the URL of the one request made. *)
Theorem news_articles_keep_upstream_length_and_order
  (host : Host) (env : process_env) (req : request) (w : world)
  (url : jsstring) (r : axios_response) (resp : http_response)
  (t : list event)
  (Hquery : ToBoolean (query_param req "city")
            || ToBoolean (query_param req "country") = true)
  (Hurl : newsUrl host env
            (or_else (query_param req "city") (query_param req "country"))
          = Ok url)
  (Hw : w url = Resolves r)
  (Hrun : run (get_api_news host env req) w = (Ok resp, t))
  (H200 : status resp = 200) :
  exists upstream_articles articles,
    field (data r) "articles" = VArr upstream_articles
    /\ field (body resp) "articles" = VArr articles
    /\ List.length articles = List.length upstream_articles
    /\ Forall2 (fun a a' => news_article a = Ok a') upstream_articles articles
    /\ outbound t = [url]
    /\ exists q,
         url = lit "https://newsapi.org/v2/everything?q=" ++ q
               ++ lit "&language=en&sortBy=publishedAt&pageSize=5&apiKey="
               ++ NEWS_API_KEY env.
Proof.
  assert (Hif : negb (ToBoolean (query_param req "city"))
                && negb (ToBoolean (query_param req "country")) = false).
  { rewrite <- negb_orb, Hquery. reflexivity. }
  unfold run, get_api_news, try_catch, bindM, eval, axios_get in Hrun.
  rewrite Hif, Hurl in Hrun. cbn -[processedNews] in Hrun.
  rewrite Hw in Hrun.
  destruct (processedNews (data r)) as [v | e] eqn:E.
  - injection Hrun as <- <-.
    destruct (processedNews_shape _ _ E) as (l & l' & Hl & Hmap & ->).
    apply mapM_Ok_Forall2 in Hmap.
    exists l, l'. split; [exact Hl |]. split; [reflexivity |].
    split; [symmetry; exact (Forall2_length Hmap) |].
    split; [exact Hmap |]. split; [reflexivity |].
    unfold newsUrl in Hurl. bind_inv Hurl. injection Hurl as <-.
    eexists. reflexivity.
  - unfold console_error, status_is in Hrun.
    rewrite (processedNews_Throw _ _ E) in Hrun.
    injection Hrun as <- <-. discriminate H200.
Qed.

(** ** The statements at the examples *)


(** The bare article, from the provider to the card. *)
Lemma news_article_optional_fields_bare :
  path bare_article ["source"; "name"] = Ok (str "BBC News")
  /\ news_article bare_article = Ok shaped_bare
  /\ exists card,
       createNewsCard example_host (wire shaped_bare) = Ok card
       /\ contains (title_element (lit "No title available"))
            (innerHTML card)
       /\ contains (description_element (lit "No description available"))
            (innerHTML card)
       /\ exists rest, innerHTML card = card_opening [] ++ rest.
Proof.
  pose proof (news_article_optional_fields example_host bare_article
                (str "BBC News") eq_refl) as H.
  cbv zeta in H. destruct H as (H1 & _ & _ & _ & _ & _ & Hcard & Hbuilt).
  split; [reflexivity |]. split; [exact H1 |].
  destruct (Hbuilt eq_refl eq_refl eq_refl eq_refl eq_refl eq_refl)
    as (card & Hc).
  exists card. split; [exact Hc |].
  destruct (Hcard card Hc) as (Ht & Hd & Hi).
  split; [exact (Ht (or_introl eq_refl)) |].
  split; [exact (Hd (or_introl eq_refl)) |].
  exact (Hi (or_intror eq_refl)).
Defined.

(** The bare article has no title: the shaped article has none either, the
    response leaves the property out, and so the adapter does not substitute
    for what is missing. *)
Lemma news_article_substitutes_nothing :
  news_article bare_article = Ok shaped_bare
  /\ missing (field bare_article "title")
  /\ field shaped_bare "title" = VUndefined
  /\ has_field (wire shaped_bare) "title" = false
  /\ ~ substitutes_when_missing news_article.
Proof.
  split; [reflexivity |]. split; [left; reflexivity |].
  split; [reflexivity |]. split; [reflexivity |].
  intros H.
  destruct (H bare_article shaped_bare eq_refl) as (Htitle & _).
  apply Htitle; [left; reflexivity | reflexivity].
Qed.

(** A place the weather provider does not know. *)
Lemma data_city_not_found_skips_news_unknown_place :
  ToBoolean (query_param unknown_place_request "city") = true
  /\ weatherUrl example_host example_env
       (query_param unknown_place_request "city")
     = Ok unknown_place_weatherUrl
  /\ nothing_found unknown_place_weatherUrl
     = Rejects (Some 404) (failed_with "404")
  /\ exists t,
       run (get_api_data example_host example_env unknown_place_request)
         nothing_found
       = (Ok {| status := 404;
                body := obj [("error", str "City not found");
                             ("message",
                              str "Please check the city name and try again")] |},
          t)
       /\ outbound t = [unknown_place_weatherUrl]
       /\ forall q nurl,
            newsUrl example_host example_env q = Ok nurl ->
            ~ In nurl (outbound t).
Proof.
  split; [reflexivity |]. split; [vm_compute; reflexivity |].
  split; [reflexivity |].
  refine (data_city_not_found_skips_news example_host example_env
            unknown_place_request nothing_found unknown_place_weatherUrl
            (failed_with "404") _ _ _);
    vm_compute; reflexivity.
Defined.

(** The London payload: 15.3 and 14.1 degrees. *)
Lemma weather_report_rounds_temperatures_london :
  processedData example_host london = Ok london_report
  /\ path london ["main"; "temp"] = Ok (VNum (dec 15.3%float))
  /\ path london ["main"; "feels_like"] = Ok (VNum (dec 14.1%float))
  /\ field london_report "temperature" = VNum (number_of_Z 15)
  /\ field london_report "feelsLike" = VNum (number_of_Z 14)
  /\ rounds_to_nearest (dec 15.3%float) (number_of_Z 15).
Proof.
  assert (Hr : processedData example_host london = Ok london_report)
    by (vm_compute; reflexivity).
  assert (Hx : path london ["main"; "temp"] = Ok (VNum (dec 15.3%float)))
    by (vm_compute; reflexivity).
  assert (Hy : path london ["main"; "feels_like"] = Ok (VNum (dec 14.1%float)))
    by (vm_compute; reflexivity).
  destruct (weather_report_rounds_temperatures example_host london
              london_report _ _ Hr Hx Hy) as (H1 & H2 & H3 & _).
  split; [exact Hr |]. split; [exact Hx |]. split; [exact Hy |].
  split; [exact H1 |]. split; [exact H2 |]. exact H3.
Defined.

(** London on a calm, dry day. *)
Lemma weather_report_defaults_wind_and_rain_calm :
  processedData example_host london_calm = Ok london_calm_report
  /\ field (field london_calm "wind") "speed" = VUndefined
  /\ field (field london_calm "rain") "3h" = VUndefined
  /\ field london_calm_report "windSpeed" = VNum (number_of_Z 0)
  /\ field london_calm_report "rainVolume" = VNum (number_of_Z 0).
Proof.
  assert (Hr : processedData example_host london_calm = Ok london_calm_report)
    by (vm_compute; reflexivity).
  destruct (weather_report_defaults_wind_and_rain example_host london_calm
              london_calm_report Hr) as (H1 & H2 & _).
  split; [exact Hr |]. split; [reflexivity |]. split; [reflexivity |].
  split; [exact (H1 eq_refl) | exact (H2 eq_refl)].
Defined.

(** The news route, with the provider over its rate limit. *)
Lemma news_upstream_failure_statuses_rate_limited :
  ToBoolean (query_param london_request "city")
  || ToBoolean (query_param london_request "country") = true
  /\ newsUrl example_host example_env
       (or_else (query_param london_request "city")
          (query_param london_request "country"))
     = Ok london_newsUrl
  /\ run (get_api_news example_host example_env london_request)
       (providers unreachable (Rejects (Some 429) (failed_with "429")))
     = (Ok {| status := 429;
              body := obj [("error", str "API rate limit exceeded");
                           ("message", str "Please try again later")] |},
        [HttpGet london_newsUrl;
         ConsoleError (lit "News API Error:") (failed_with "429")]).
Proof.
  assert (Hq : ToBoolean (query_param london_request "city")
               || ToBoolean (query_param london_request "country") = true)
    by reflexivity.
  assert (Hu : newsUrl example_host example_env
                 (or_else (query_param london_request "city")
                    (query_param london_request "country"))
               = Ok london_newsUrl)
    by (vm_compute; reflexivity).
  split; [exact Hq |]. split; [exact Hu |].
  apply (proj1 (news_upstream_failure_statuses example_host example_env
                  london_request
                  (providers unreachable
                     (Rejects (Some 429) (failed_with "429")))
                  london_newsUrl Hq Hu)).
  vm_compute. reflexivity.
Defined.

(** A request with no query string. *)
Lemma missing_parameter_is_answered_400_bare :
  lookup (lit "city") (query bare_request) = None
  /\ run (get_api_weather example_host example_env bare_request) nothing_found
     = (Ok {| status := 400;
              body := obj [("error", str "City parameter is required");
                           ("example", str "/api/weather?city=London")] |},
        [])
  /\ run (get_api_news example_host example_env bare_request) nothing_found
     = (Ok {| status := 400;
              body := obj [("error",
                            str "City or country parameter is required");
                           ("example",
                            str "/api/news?city=London or /api/news?country=GB")] |},
        []).
Proof.
  destruct (missing_parameter_is_answered_400 example_host example_env
              bare_request nothing_found eq_refl) as (H1 & _ & H3).
  split; [reflexivity |]. split; [exact H1 | exact (H3 eq_refl)].
Defined.

(** Six upstream articles give six articles, in their order. *)
Lemma news_articles_keep_upstream_length_and_order_six :
  run (get_api_news example_host example_env london_request)
    (providers unreachable (answers six_articles))
  = (Ok {| status := 200;
           body := obj [("totalResults", VNum (number_of_Z 1234));
                        ("articles",
                         VArr [shaped_full "one"; shaped_full "two";
                               shaped_bare; shaped_full "four";
                               shaped_full "five"; shaped_full "six"])] |},
     [HttpGet london_newsUrl])
  /\ exists upstream_articles articles,
       field six_articles "articles" = VArr upstream_articles
       /\ field (obj [("totalResults", VNum (number_of_Z 1234));
                      ("articles",
                       VArr [shaped_full "one"; shaped_full "two";
                             shaped_bare; shaped_full "four";
                             shaped_full "five"; shaped_full "six"])])
            "articles" = VArr articles
       /\ List.length articles = 6%nat
       /\ List.length upstream_articles = 6%nat.
Proof.
  assert (Hrun : run (get_api_news example_host example_env london_request)
                   (providers unreachable (answers six_articles))
                 = (Ok {| status := 200;
                          body := obj [("totalResults", VNum (number_of_Z 1234));
                                       ("articles",
                                        VArr [shaped_full "one"; shaped_full "two";
                                              shaped_bare; shaped_full "four";
                                              shaped_full "five";
                                              shaped_full "six"])] |},
                    [HttpGet london_newsUrl]))
    by (vm_compute; reflexivity).
  split; [exact Hrun |].
  destruct (news_articles_keep_upstream_length_and_order example_host
              example_env london_request
              (providers unreachable (answers six_articles)) london_newsUrl
              {| data := six_articles; response_code := 200 |} _ _
              eq_refl eq_refl eq_refl Hrun eq_refl)
    as (l & l' & Hl & Hl' & Hlen & _).
  exists l, l'. split; [exact Hl |]. split; [exact Hl' |].
  assert (L : List.length l = 6%nat).
  { cbn in Hl. injection Hl as <-. reflexivity. }
  split; [rewrite Hlen; exact L | exact L].
Defined.

(** * Further properties of the routes *)

(** ** Induction on values *)

Lemma value_induction (P : value -> Prop)
  (Hundefined : P VUndefined) (Hnull : P VNull)
  (Hbool : forall b, P (VBool b)) (Hnum : forall x, P (VNum x))
  (Hstr : forall s, P (VStr s))
  (Harr : forall l, Forall P l -> P (VArr l))
  (Hobj : forall o, Forall (fun kv => P (snd kv)) o -> P (VObj o)) :
  forall v, P v.
Proof.
  fix IH 1.
  intros [| | b | x | s | l | o];
    [exact Hundefined | exact Hnull | apply Hbool | apply Hnum | apply Hstr
    | | ].
  - apply Harr. induction l as [| v l IHl]; constructor; [apply IH | exact IHl].
  - apply Hobj. induction o as [| [k v] o IHo]; constructor;
      [apply IH | exact IHo].
Qed.

(** ** Only a rejected request carries an upstream response *)

Lemma ToString_Throw (host : Host) (v : value) (e : exn) :
  ToString host v = Throw e -> response_status e = None.
Proof.
  revert e. induction v as [| | b | x | s | l IHl | o _] using value_induction;
    intros e; try discriminate.
  - destruct b; discriminate.
  - cbn [ToString]. induction IHl as [| v l Hv _ IH]; [discriminate |].
    intros H. apply bind_Throw in H. destruct H as [H | (a & _ & H)].
    + destruct (is_nullish v); [discriminate | exact (Hv e H)].
    + destruct l as [| v' l']; [discriminate |].
      apply bind_Throw in H. destruct H as [H | (b & _ & H)];
        [exact (IH H) | discriminate].
  - cbn [ToString]. destruct (lookup (lit "toString") o);
      [intros [= <-]; reflexivity | discriminate].
Qed.

Lemma ToPrimitive_Throw (host : Host) (v : value) (e : exn) :
  ToPrimitive host v = Throw e -> response_status e = None.
Proof.
  unfold ToPrimitive. destruct v; try discriminate; intros H;
    apply bind_Throw in H; destruct H as [H | (s & _ & H)];
    try discriminate; exact (ToString_Throw host _ e H).
Qed.

Lemma Math_round_Throw (host : Host) (v : value) (e : exn) :
  Math_round host v = Throw e -> response_status e = None.
Proof.
  unfold Math_round, ToNumber. intros H.
  apply bind_Throw in H. destruct H as [H | (x & _ & H)]; [| discriminate].
  apply bind_Throw in H. destruct H as [H | (p & _ & H)].
  - exact (ToPrimitive_Throw host v e H).
  - destruct p as [| | [] | | | |]; discriminate.
Qed.

Lemma Encode_Throw (s : jsstring) (e : exn) :
  Encode s = Throw e -> response_status e = None.
Proof.
  assert (G : forall n s, (List.length s <= n)%nat ->
                          Encode s = Throw e -> response_status e = None).
  { induction n as [| n IH]; intros [| c rest] L; try discriminate;
      [cbn in L; lia |].
    cbn in L. cbn [Encode].
    destruct (unreserved c).
    { intros H. apply bind_Throw in H. destruct H as [H | (r & _ & H)];
        [| discriminate]. apply (IH rest); [lia | exact H]. }
    destruct (is_low_surrogate c); [intros [= <-]; reflexivity |].
    destruct (is_high_surrogate c).
    - destruct rest as [| c2 rest']; [intros [= <-]; reflexivity |].
      destruct (is_low_surrogate c2); [| intros [= <-]; reflexivity].
      intros H. apply bind_Throw in H. destruct H as [H | (r & _ & H)];
        [| discriminate]. apply (IH rest'); [cbn in L; lia | exact H].
    - intros H. apply bind_Throw in H. destruct H as [H | (r & _ & H)];
        [| discriminate]. apply (IH rest); [lia | exact H]. }
  exact (G (List.length s) s (le_n _)).
Qed.

Lemma encodeURIComponent_Throw (host : Host) (v : value) (e : exn) :
  encodeURIComponent host v = Throw e -> response_status e = None.
Proof.
  unfold encodeURIComponent. intros H.
  apply bind_Throw in H. destruct H as [H | (s & _ & H)].
  - exact (ToString_Throw host v e H).
  - exact (Encode_Throw s e H).
Qed.

Lemma weatherUrl_Throw (host : Host) (env : process_env) (v : value) (e : exn) :
  weatherUrl host env v = Throw e -> response_status e = None.
Proof.
  unfold weatherUrl. intros H.
  apply bind_Throw in H. destruct H as [H | (s & _ & H)]; [| discriminate].
  exact (encodeURIComponent_Throw host v e H).
Qed.

Lemma newsUrl_Throw (host : Host) (env : process_env) (v : value) (e : exn) :
  newsUrl host env v = Throw e -> response_status e = None.
Proof.
  unfold newsUrl. intros H.
  apply bind_Throw in H. destruct H as [H | (s & _ & H)]; [| discriminate].
  exact (encodeURIComponent_Throw host v e H).
Qed.

Lemma processedData_Throw (host : Host) (weatherData : value) (e : exn) :
  processedData host weatherData = Throw e -> response_status e = None.
Proof.
  unfold processedData. intros H.
  repeat (apply bind_Throw in H;
          destruct H as [H | (? & _ & H)];
          [ first [ exact (get_Throw _ _ _ H)
                  | exact (path_from_value_Throw _ _ _ H)
                  | exact (Math_round_Throw _ _ _ H)
                  | unfold get_opt in H;
                    match type of H with
                    | (if ?c then _ else _) = _ => destruct c
                    end; [discriminate H | exact (get_Throw _ _ _ H)] ] | ]).
  discriminate H.
Qed.

(** ** What every request gets *)

Ltac run_route :=
  unfold run, get_api_weather, get_api_news, get_api_data, try_catch, bindM,
    eval, axios_get, console_error, ret, res_json, res_status_json, status_is.

Ltac no_response H :=
  first [ rewrite (weatherUrl_Throw _ _ _ _ H)
        | rewrite (newsUrl_Throw _ _ _ _ H)
        | rewrite (processedData_Throw _ _ _ H)
        | rewrite (processedNews_Throw _ _ H) ].

(** X1. [/api/weather] answers every request, with status 200, 400, 401, 404
    or 500, after at most one outbound request, which is the weather URL of
    the city. 400 is the answer exactly when [city] is missing or empty; 200
    means that the provider resolved and its payload was shaped into the
    body; 404 and 401 are only ever passed on from the provider. *)
Theorem weather_route_answers
  (host : Host) (env : process_env) (req : request) (w : world) :
  exists resp t,
    run (get_api_weather host env req) w = (Ok resp, t)
    /\ In (status resp) [200; 400; 401; 404; 500]
    /\ (outbound t = []
        \/ exists url,
             weatherUrl host env (query_param req "city") = Ok url
             /\ outbound t = [url])
    /\ (status resp = 400 <-> ToBoolean (query_param req "city") = false)
    /\ (status resp = 200 ->
        exists url r,
          weatherUrl host env (query_param req "city") = Ok url
          /\ w url = Resolves r
          /\ processedData host (data r) = Ok (body resp)
          /\ t = [HttpGet url])
    /\ (forall code, status resp = code -> code = 401 \/ code = 404 ->
        exists url message,
          weatherUrl host env (query_param req "city") = Ok url
          /\ w url = Rejects (Some code) message).
Proof.
  run_route.
  destruct (ToBoolean (query_param req "city")) eqn:Hcity; cbn.
  2: { do 2 eexists. split; [reflexivity |]. cbn.
       split; [auto |]. split; [auto |].
       split; [split; reflexivity |]. split; [discriminate |].
       intros code <- [H | H]; discriminate H. }
  destruct (weatherUrl host env (query_param req "city")) as [url | e] eqn:Hurl;
    cbn.
  2: { no_response Hurl. do 2 eexists. split; [reflexivity |]. cbn.
       split; [auto 6 |]. split; [auto |].
       split; [split; discriminate |]. split; [discriminate |].
       intros code <- [H | H]; discriminate H. }
  destruct (w url) as [r | response message] eqn:Hw; cbn.
  - destruct (processedData host (data r)) as [pd | e] eqn:Hpd; cbn.
    + do 2 eexists. split; [reflexivity |]. cbn.
      split; [auto |]. split; [right; eauto |].
      split; [split; discriminate |].
      split; [intros _; exists url, r; auto |].
      intros code <- [H | H]; discriminate H.
    + no_response Hpd. do 2 eexists. split; [reflexivity |]. cbn.
      split; [auto 6 |]. split; [right; eauto |].
      split; [split; discriminate |]. split; [discriminate |].
      intros code <- [H | H]; discriminate H.
  - destruct response as [s |]; cbn.
    + destruct (s =? 404) eqn:E404; cbn.
      { apply Z.eqb_eq in E404. subst s.
        do 2 eexists. split; [reflexivity |]. cbn.
        split; [auto 6 |]. split; [right; eauto |].
        split; [split; discriminate |]. split; [discriminate |].
        intros code <- _. eauto. }
      destruct (s =? 401) eqn:E401; cbn.
      { apply Z.eqb_eq in E401. subst s.
        do 2 eexists. split; [reflexivity |]. cbn.
        split; [auto 6 |]. split; [right; eauto |].
        split; [split; discriminate |]. split; [discriminate |].
        intros code <- _. eauto. }
      do 2 eexists. split; [reflexivity |]. cbn.
      split; [auto 6 |]. split; [right; eauto |].
      split; [split; discriminate |]. split; [discriminate |].
      intros code <- [H | H]; discriminate H.
    + do 2 eexists. split; [reflexivity |]. cbn.
      split; [auto 6 |]. split; [right; eauto |].
      split; [split; discriminate |]. split; [discriminate |].
      intros code <- [H | H]; discriminate H.
Qed.

(** X2. [/api/news] answers every request, with status 200, 400, 401, 429 or
    500, after at most one outbound request, which is the news URL of the
    search term. 400 is the answer exactly when both [city] and [country] are
    missing or empty; 200 means that the provider resolved and its payload
    was shaped into the body; 401 and 429 are only ever passed on from the
    provider. *)
Theorem news_route_answers
  (host : Host) (env : process_env) (req : request) (w : world) :
  exists resp t,
    run (get_api_news host env req) w = (Ok resp, t)
    /\ In (status resp) [200; 400; 401; 429; 500]
    /\ (outbound t = []
        \/ exists url,
             newsUrl host env
               (or_else (query_param req "city") (query_param req "country"))
             = Ok url
             /\ outbound t = [url])
    /\ (status resp = 400 <->
        ToBoolean (query_param req "city") = false
        /\ ToBoolean (query_param req "country") = false)
    /\ (status resp = 200 ->
        exists url r,
          newsUrl host env
            (or_else (query_param req "city") (query_param req "country"))
          = Ok url
          /\ w url = Resolves r
          /\ processedNews (data r) = Ok (body resp)
          /\ t = [HttpGet url])
    /\ (forall code, status resp = code -> code = 401 \/ code = 429 ->
        exists url message,
          newsUrl host env
            (or_else (query_param req "city") (query_param req "country"))
          = Ok url
          /\ w url = Rejects (Some code) message).
Proof.
  run_route.
  destruct (negb (ToBoolean (query_param req "city"))
            && negb (ToBoolean (query_param req "country"))) eqn:Hq; cbn.
  { apply andb_prop in Hq. destruct Hq as [Hc Hk].
    apply negb_true_iff in Hc, Hk.
    do 2 eexists. split; [reflexivity |]. cbn.
    split; [auto |]. split; [auto |].
    split; [split; auto |]. split; [discriminate |].
    intros code <- [H | H]; discriminate H. }
  assert (Hnot : ~ (ToBoolean (query_param req "city") = false
                    /\ ToBoolean (query_param req "country") = false)).
  { intros [Hc Hk]. rewrite Hc, Hk in Hq. discriminate Hq. }
  destruct (newsUrl host env
              (or_else (query_param req "city") (query_param req "country")))
    as [url | e] eqn:Hurl; cbn.
  2: { no_response Hurl. do 2 eexists. split; [reflexivity |]. cbn.
       split; [auto 6 |]. split; [auto |].
       split; [split; [discriminate | intros H; destruct (Hnot H)] |].
       split; [discriminate |].
       intros code <- [H | H]; discriminate H. }
  destruct (w url) as [r | response message] eqn:Hw; cbn.
  - destruct (processedNews (data r)) as [pn | e] eqn:Hpn; cbn.
    + do 2 eexists. split; [reflexivity |]. cbn.
      split; [auto |]. split; [right; eauto |].
      split; [split; [discriminate | intros H; destruct (Hnot H)] |].
      split; [intros _; exists url, r; auto |].
      intros code <- [H | H]; discriminate H.
    + no_response Hpn. do 2 eexists. split; [reflexivity |]. cbn.
      split; [auto 6 |]. split; [right; eauto |].
      split; [split; [discriminate | intros H; destruct (Hnot H)] |].
      split; [discriminate |].
      intros code <- [H | H]; discriminate H.
  - destruct response as [s |]; cbn.
    + destruct (s =? 401) eqn:E401; cbn.
      { apply Z.eqb_eq in E401. subst s.
        do 2 eexists. split; [reflexivity |]. cbn.
        split; [auto 6 |]. split; [right; eauto |].
        split; [split; [discriminate | intros H; destruct (Hnot H)] |].
        split; [discriminate |].
        intros code <- _. eauto. }
      destruct (s =? 429) eqn:E429; cbn.
      { apply Z.eqb_eq in E429. subst s.
        do 2 eexists. split; [reflexivity |]. cbn.
        split; [auto 6 |]. split; [right; eauto |].
        split; [split; [discriminate | intros H; destruct (Hnot H)] |].
        split; [discriminate |].
        intros code <- _. eauto. }
      do 2 eexists. split; [reflexivity |]. cbn.
      split; [auto 6 |]. split; [right; eauto |].
      split; [split; [discriminate | intros H; destruct (Hnot H)] |].
      split; [discriminate |].
      intros code <- [H | H]; discriminate H.
    + do 2 eexists. split; [reflexivity |]. cbn.
      split; [auto 6 |]. split; [right; eauto |].
      split; [split; [discriminate | intros H; destruct (Hnot H)] |].
      split; [discriminate |].
      intros code <- [H | H]; discriminate H.
Qed.

Lemma weatherUrl_newsUrl
  (host : Host) (env : process_env) (city : value) (url : jsstring) :
  weatherUrl host env city = Ok url ->
  exists nurl, newsUrl host env city = Ok nurl.
Proof.
  unfold weatherUrl, newsUrl. intros H. bind_inv H. rewrite E.
  eexists. reflexivity.
Qed.

(** The news shaping written out in [/api/data] gives what the one of
    [/api/news] gives, whenever either gives anything. *)
Lemma newsData_shaping (d n : value) :
  (totalResults <- get d (lit "totalResults") ;;
   upstream_articles <- get d (lit "articles") ;;
   articles <- call_map "newsResponse.data.articles"
                 upstream_articles data_article ;;
   Ok (obj [("totalResults", totalResults); ("articles", articles)])) = Ok n
  <-> processedNews d = Ok n.
Proof.
  unfold processedNews.
  destruct (get d (lit "totalResults")) as [tr | e]; cbn [bind];
    [| split; discriminate].
  destruct (get d (lit "articles")) as [a | e]; cbn [bind];
    [| split; discriminate].
  destruct a; cbn [call_map bind]; try (split; discriminate).
  change data_article with news_article. reflexivity.
Qed.

(** X3. [/api/data] answers every request, with status 200, 400, 404 or 500
    and never 401 or 429. 400 is the answer exactly when [city] is missing or
    empty. 200 means that the weather provider resolved and its payload was
    shaped; then both providers were asked, the weather one first, and [news]
    is either the shaped news payload or the placeholder. Any other status
    means the news provider was not asked. 404 is only ever passed on from
    the weather provider. *)
Theorem data_route_answers
  (host : Host) (env : process_env) (req : request) (w : world) :
  exists resp t,
    run (get_api_data host env req) w = (Ok resp, t)
    /\ In (status resp) [200; 400; 404; 500]
    /\ (status resp = 400 <-> ToBoolean (query_param req "city") = false)
    /\ (status resp = 200 ->
        exists wurl nurl r weather news,
          weatherUrl host env (query_param req "city") = Ok wurl
          /\ newsUrl host env (query_param req "city") = Ok nurl
          /\ w wurl = Resolves r
          /\ processedWeather host (data r) = Ok weather
          /\ body resp = obj [("weather", weather); ("news", news)]
          /\ outbound t = [wurl; nurl]
          /\ (news = newsData_unavailable
              \/ exists nr,
                   w nurl = Resolves nr
                   /\ processedNews (data nr) = Ok news))
    /\ (status resp <> 200 ->
        outbound t = []
        \/ exists wurl,
             weatherUrl host env (query_param req "city") = Ok wurl
             /\ outbound t = [wurl])
    /\ (status resp = 404 ->
        exists wurl message,
          weatherUrl host env (query_param req "city") = Ok wurl
          /\ w wurl = Rejects (Some 404) message).
Proof.
  run_route.
  destruct (ToBoolean (query_param req "city")) eqn:Hcity; cbn.
  2: { do 2 eexists. split; [reflexivity |]. cbn.
       split; [auto |]. split; [split; reflexivity |].
       split; [discriminate |]. split; [auto |]. discriminate. }
  destruct (weatherUrl host env (query_param req "city")) as [wurl | e]
    eqn:Hurl; cbn.
  2: { no_response Hurl. do 2 eexists. split; [reflexivity |]. cbn.
       split; [auto 6 |]. split; [split; discriminate |].
       split; [discriminate |]. split; [auto |]. discriminate. }
  destruct (w wurl) as [r | response message] eqn:Hw; cbn.
  - destruct (processedWeather host (data r)) as [weather | e] eqn:Hpw; cbn.
    + destruct (weatherUrl_newsUrl host env _ wurl Hurl) as (nurl & Hnurl).
      unfold newsData_try, bindM, eval, axios_get. rewrite Hnurl. cbn.
      destruct (w nurl) as [nr | response message] eqn:Hn; cbn.
      * match goal with
        | |- context [bind ?m ?f] => destruct (bind m f) as [news | e] eqn:Hs
        end; cbn.
        -- apply newsData_shaping in Hs.
           do 2 eexists. split; [reflexivity |]. cbn.
           split; [auto |]. split; [split; discriminate |].
           split; [| split; [intros H; destruct (H eq_refl) | discriminate]].
           intros _. exists wurl, nurl, r, weather, news.
           repeat (split; [solve [auto] |]). right. eauto.
        -- do 2 eexists. split; [reflexivity |]. cbn.
           split; [auto |]. split; [split; discriminate |].
           split; [| split; [intros H; destruct (H eq_refl) | discriminate]].
           intros _. exists wurl, nurl, r, weather, newsData_unavailable.
           repeat (split; [solve [auto] |]). left. reflexivity.
      * do 2 eexists. split; [reflexivity |]. cbn.
        split; [auto |]. split; [split; discriminate |].
        split; [| split; [intros H; destruct (H eq_refl) | discriminate]].
        intros _. exists wurl, nurl, r, weather, newsData_unavailable.
        repeat (split; [solve [auto] |]). left. reflexivity.
    + change (processedWeather host (data r))
        with (processedData host (data r)) in Hpw.
      no_response Hpw. do 2 eexists. split; [reflexivity |]. cbn.
      split; [auto 6 |]. split; [split; discriminate |].
      split; [discriminate |]. split; [right; eauto |]. discriminate.
  - destruct response as [s |]; cbn.
    + destruct (s =? 404) eqn:E404; cbn.
      { apply Z.eqb_eq in E404. subst s.
        do 2 eexists. split; [reflexivity |]. cbn.
        split; [auto 6 |]. split; [split; discriminate |].
        split; [discriminate |]. split; [right; eauto |]. eauto. }
      do 2 eexists. split; [reflexivity |]. cbn.
      split; [auto 6 |]. split; [split; discriminate |].
      split; [discriminate |]. split; [right; eauto |]. discriminate.
    + do 2 eexists. split; [reflexivity |]. cbn.
      split; [auto 6 |]. split; [split; discriminate |].
      split; [discriminate |]. split; [right; eauto |]. discriminate.
Qed.

(** X4. When the weather provider's answer to [/api/weather] is a failure:
    status 404 gives 404 "City not found", status 401 gives 401 "Invalid API
    key", and every other failure (another status, no answer at all, a
    payload that cannot be shaped) gives 500 "Failed to fetch weather data"
    with the error's own message. *)
Theorem weather_upstream_failure_statuses
  (host : Host) (env : process_env) (req : request) (w : world)
  (url : jsstring)
  (Hcity : ToBoolean (query_param req "city") = true)
  (Hurl : weatherUrl host env (query_param req "city") = Ok url) :
  (forall message,
     w url = Rejects (Some 404) message ->
     run (get_api_weather host env req) w
     = (Ok {| status := 404;
              body := obj [("error", str "City not found");
                           ("message",
                            str "Please check the city name and try again")] |},
        [HttpGet url; ConsoleError (lit "Weather API Error:") message]))
  /\ (forall message,
        w url = Rejects (Some 401) message ->
        run (get_api_weather host env req) w
        = (Ok {| status := 401;
                 body := obj [("error", str "Invalid API key");
                              ("message",
                               str "Please check your OpenWeather API key")] |},
           [HttpGet url; ConsoleError (lit "Weather API Error:") message]))
  /\ (forall response message,
        w url = Rejects response message ->
        response <> Some 404 -> response <> Some 401 ->
        run (get_api_weather host env req) w
        = (Ok {| status := 500;
                 body := obj [("error", str "Failed to fetch weather data");
                              ("message", VStr message)] |},
           [HttpGet url; ConsoleError (lit "Weather API Error:") message]))
  /\ (forall r e,
        w url = Resolves r ->
        processedData host (data r) = Throw e ->
        run (get_api_weather host env req) w
        = (Ok {| status := 500;
                 body := obj [("error", str "Failed to fetch weather data");
                              ("message", VStr (message_of e))] |},
           [HttpGet url;
            ConsoleError (lit "Weather API Error:") (message_of e)])).
Proof.
  split; [| split; [| split]].
  - intros message Hw. run_route. rewrite Hcity, Hurl. cbn. rewrite Hw.
    reflexivity.
  - intros message Hw. run_route. rewrite Hcity, Hurl. cbn. rewrite Hw.
    reflexivity.
  - intros response message Hw H404 H401. run_route.
    rewrite Hcity, Hurl. cbn. rewrite Hw. cbn.
    destruct response as [s |]; [| reflexivity]. cbn.
    destruct (s =? 404) eqn:E1.
    { apply Z.eqb_eq in E1. subst s. contradiction H404. reflexivity. }
    destruct (s =? 401) eqn:E2.
    { apply Z.eqb_eq in E2. subst s. contradiction H401. reflexivity. }
    reflexivity.
  - intros r e Hw He. run_route. rewrite Hcity, Hurl. cbn. rewrite Hw, He.
    cbn. no_response He. reflexivity.
Qed.

(** X5. In [/api/news] the city takes precedence: with a city, the request is
    handled exactly as if the city were the only parameter, whatever the
    country; without one, exactly as if the country had been given as the
    city. *)
Theorem news_city_takes_precedence
  (host : Host) (env : process_env) (req : request) (w : world) :
  (ToBoolean (query_param req "city") = true ->
   run (get_api_news host env req) w
   = run (get_api_news host env
            {| query := [(lit "city", query_param req "city")] |}) w)
  /\ (ToBoolean (query_param req "city") = false ->
      run (get_api_news host env req) w
      = run (get_api_news host env
               {| query := [(lit "city", query_param req "country")] |}) w).
Proof.
  split; intros Hcity.
  - unfold run, get_api_news.
    change (query_param {| query := [(lit "city", query_param req "city")] |}
              "city") with (query_param req "city").
    change (query_param {| query := [(lit "city", query_param req "city")] |}
              "country") with VUndefined.
    unfold or_else. rewrite Hcity. reflexivity.
  - unfold run, get_api_news.
    change (query_param
              {| query := [(lit "city", query_param req "country")] |} "city")
      with (query_param req "country").
    change (query_param
              {| query := [(lit "city", query_param req "country")] |}
              "country") with VUndefined.
    unfold or_else. rewrite Hcity.
    destruct (ToBoolean (query_param req "country")); reflexivity.
Qed.

(** X6. The [news] of a 200 answer of [/api/data] is what [/api/news] answers
    to the same request in the same world: its body when that answer is 200,
    the placeholder when it is anything else. *)
Theorem data_news_is_the_news_route
  (host : Host) (env : process_env) (req : request) (w : world)
  (combined single : http_response) (t t' : list event)
  (Hdata : run (get_api_data host env req) w = (Ok combined, t))
  (Hnews : run (get_api_news host env req) w = (Ok single, t'))
  (H200 : status combined = 200) :
  field (body combined) "news"
  = if status single =? 200 then body single else newsData_unavailable.
Proof.
  revert Hdata Hnews. run_route.
  destruct (ToBoolean (query_param req "city")) eqn:Hcity; cbn -[newsUrl weatherUrl newsData_try processedWeather processedNews].
  2: { intros [= <- <-]. discriminate H200. }
  unfold or_else. rewrite Hcity.
  destruct (weatherUrl host env (query_param req "city")) as [wurl | e]
    eqn:Hurl; cbn -[newsUrl weatherUrl newsData_try processedWeather processedNews].
  2: { no_response Hurl. intros [= <- <-]. discriminate H200. }
  destruct (weatherUrl_newsUrl host env _ wurl Hurl) as (nurl & Hnurl).
  rewrite Hnurl. cbn -[newsUrl weatherUrl newsData_try processedWeather processedNews].
  destruct (w wurl) as [r | response message] eqn:Hw; cbn -[newsUrl weatherUrl newsData_try processedWeather processedNews].
  2: { destruct response as [s |]; cbn; [destruct (s =? 404) |];
         intros [= <- <-]; discriminate H200. }
  destruct (processedWeather host (data r)) as [weather | e] eqn:Hpw; cbn -[newsUrl weatherUrl newsData_try processedWeather processedNews].
  2: { change (processedWeather host (data r))
         with (processedData host (data r)) in Hpw.
       no_response Hpw. intros [= <- <-]. discriminate H200. }
  unfold newsData_try, bindM, eval, axios_get. rewrite Hnurl. cbn -[newsUrl weatherUrl newsData_try processedWeather processedNews].
  destruct (w nurl) as [nr | response message] eqn:Hn; cbn -[newsUrl weatherUrl newsData_try processedWeather processedNews].
  - match goal with
    | |- context [bind ?m ?f] => destruct (bind m f) as [news | e'] eqn:Hs
    end.
    + pose proof (proj1 (newsData_shaping (data nr) news) Hs) as Hpn.
      rewrite Hpn. cbn. intros [= <- <-] [= <- <-]. reflexivity.
    + destruct (processedNews (data nr)) as [news | e] eqn:Hpn.
      { pose proof (proj2 (newsData_shaping (data nr) news) Hpn) as Hs'.
        assert (X : Throw e' = Ok news) by (rewrite <- Hs; exact Hs').
        discriminate X. }
      cbn. no_response Hpn. intros [= <- <-] [= <- <-]. reflexivity.
  - intros [= <- <-]. destruct response as [s |]; cbn -[newsUrl weatherUrl newsData_try processedWeather processedNews].
    + destruct (s =? 401); [intros [= <- <-]; reflexivity |].
      destruct (s =? 429); intros [= <- <-]; reflexivity.
    + intros [= <- <-]. reflexivity.
Qed.

(** ** The query in the outbound URLs *)

Lemma hex_digit_unreserved (d : N) : unreserved (hex_digit d) = true.
Proof.
  unfold hex_digit. generalize (N.to_nat d). intros n.
  do 16 (destruct n as [| n]; [reflexivity |]).
  destruct n; reflexivity.
Qed.

Lemma percent_safe (byte : N) : forallb uri_safe (percent byte) = true.
Proof.
  unfold percent, uri_safe. cbn [lit list_ascii_of_string map app forallb].
  rewrite !hex_digit_unreserved. reflexivity.
Qed.

Lemma flat_map_percent_safe (bytes : list N) :
  forallb uri_safe (flat_map percent bytes) = true.
Proof.
  induction bytes as [| b bytes IH]; [reflexivity |].
  cbn [flat_map]. rewrite forallb_app, percent_safe, IH. reflexivity.
Qed.

Lemma Ok_eq {A : Type} (a b : A) : Ok a = Ok b -> a = b.
Proof. intros [= H]. exact H. Qed.

Lemma Encode_safe (s r : jsstring) :
  Encode s = Ok r -> forallb uri_safe r = true.
Proof.
  assert (G : forall n s r, (List.length s <= n)%nat ->
                            Encode s = Ok r -> forallb uri_safe r = true).
  { clear s r. induction n as [| n IH]; intros s r L; destruct s as [| c rest].
    - intros H. apply Ok_eq in H. subst r. reflexivity.
    - cbn [List.length] in L. lia.
    - intros H. apply Ok_eq in H. subst r. reflexivity.
    - cbn [List.length] in L. cbn [Encode].
      destruct (unreserved c) eqn:U.
      { intros H. bind_inv H. apply Ok_eq in H. subst r. cbn [forallb].
        unfold uri_safe at 1. rewrite U. apply (IH rest); [lia | exact E]. }
      destruct (is_low_surrogate c); [discriminate |].
      destruct (is_high_surrogate c).
      + destruct rest as [| c2 rest']; [discriminate |].
        destruct (is_low_surrogate c2); [| discriminate].
        intros H. bind_inv H. apply Ok_eq in H. subst r.
        rewrite forallb_app, flat_map_percent_safe.
        apply (IH rest'); [cbn [List.length] in L; lia | exact E].
      + intros H. bind_inv H. apply Ok_eq in H. subst r.
        rewrite forallb_app, flat_map_percent_safe.
        apply (IH rest); [lia | exact E]. }
  exact (G (List.length s) s r (le_n _)).
Qed.

(** X7. The query reaches the providers percent-encoded: in both outbound
    URLs it stands between the fixed text of the route, and each of its code
    units is an unreserved character or belongs to a percent escape, so it
    holds none of the delimiters [& = # ? / +] nor a space. *)
Theorem outbound_urls_encode_the_query
  (host : Host) (env : process_env) (query : value) (q : jsstring)
  (Hq : encodeURIComponent host query = Ok q) :
  weatherUrl host env query
  = Ok (lit "https://api.openweathermap.org/data/2.5/weather?q=" ++ q
        ++ lit "&appid=" ++ OPENWEATHER_API_KEY env ++ lit "&units=metric")
  /\ newsUrl host env query
     = Ok (lit "https://newsapi.org/v2/everything?q=" ++ q
           ++ lit "&language=en&sortBy=publishedAt&pageSize=5&apiKey="
           ++ NEWS_API_KEY env)
  /\ forallb uri_safe q = true
  /\ forall c, In c q -> ~ In c (lit "&=#?/+ ").
Proof.
  assert (S : forallb uri_safe q = true).
  { unfold encodeURIComponent in Hq. bind_inv Hq. exact (Encode_safe _ _ Hq). }
  split; [unfold weatherUrl; rewrite Hq; reflexivity |].
  split; [unfold newsUrl; rewrite Hq; reflexivity |].
  split; [exact S |].
  intros c Hc Hd. rewrite forallb_forall in S. specialize (S c Hc).
  cbn in Hd.
  repeat (destruct Hd as [<- | Hd]; [discriminate S |]). exact Hd.
Qed.

(** ** Which fields a payload needs *)

Lemma get_Ok_field (v x : value) (k : string) :
  plain_key k = true ->
  get v (lit k) = Ok x <-> is_nullish v = false /\ x = field v k.
Proof.
  intros P. split.
  - intros H. split; [exact (get_not_nullish _ _ _ H) |].
    exact (get_field v k x P H).
  - intros [N ->]. exact (get_total v k N P).
Qed.

Lemma is_nullish_field (v : value) (k : string) :
  is_nullish (field v k) = false -> is_nullish v = false.
Proof.
  destruct v; try reflexivity; discriminate.
Qed.

Lemma path2_Ok (v x : value) (a b : string) :
  plain_key a = true -> plain_key b = true ->
  path v [a; b] = Ok x
  <-> is_nullish (field v a) = false /\ x = field (field v a) b.
Proof.
  intros Pa Pb. unfold path. cbn [fold_left bind]. split.
  - intros H. bind_inv H.
    apply (get_Ok_field _ _ _ Pa) in E. destruct E as [_ ->].
    apply (get_Ok_field _ _ _ Pb) in H. exact H.
  - intros [N ->].
    rewrite (get_total v a (is_nullish_field _ _ N) Pa). cbn [bind].
    exact (get_total _ b N Pb).
Qed.

(** X8. The weather payload is shaped if and only if it has a [main], a
    [coord] and a [sys] and a first entry of [weather] that are neither
    missing nor [null], and [Math.round] accepts [main.temp] and
    [main.feels_like]. Everything else ([name], [description], [icon], the
    coordinates, the country, humidity, pressure, wind and rain) may be
    missing. *)
Theorem weather_payload_is_shaped_iff (host : Host) (weatherData : value) :
  (exists r, processedData host weatherData = Ok r)
  <-> is_nullish (field weatherData "main") = false
      /\ is_nullish (field weatherData "coord") = false
      /\ is_nullish (field weatherData "sys") = false
      /\ (exists first, path weatherData ["weather"; "0"] = Ok first
                        /\ is_nullish first = false)
      /\ (exists temperature,
            Math_round host (field (field weatherData "main") "temp")
            = Ok temperature)
      /\ (exists feelsLike,
            Math_round host (field (field weatherData "main") "feels_like")
            = Ok feelsLike).
Proof.
  split.
  - intros (r & H). unfold processedData in H.
    repeat bind_inv H. clear H.
    repeat match goal with
           | G : path _ [_; _] = Ok _ |- _ =>
               apply path2_Ok in G; [destruct G as [? ->] | reflexivity ..]
           end.
    repeat match goal with
           | G : path _ ["weather"; "0"; _] = Ok _ |- _ =>
               unfold path in G; cbn [fold_left] in G; bind_inv G;
               apply get_not_nullish in G
           end.
    repeat (split; [assumption |]).
    split; [eexists; split; [unfold path; cbn [fold_left]; eassumption
                            | assumption] |].
    split; eexists; eassumption.
  - intros (Nm & Nc & Ns & (first & Hf & Nf) & (a & Ha) & (b & Hb)).
    assert (N : is_nullish weatherData = false)
      by exact (is_nullish_field _ _ Nm).
    unfold processedData.
    rewrite (proj2 (path2_Ok weatherData _ "main" "temp" eq_refl eq_refl)
               (conj Nm eq_refl)). cbn [bind]. rewrite Ha. cbn [bind].
    assert (W : forall k, plain_key k = true ->
                path weatherData ["weather"; "0"; k] = Ok (field first k)).
    { intros k Pk. unfold path in *. cbn [fold_left] in *. rewrite Hf.
      cbn [bind]. exact (get_total first k Nf Pk). }
    rewrite !W by reflexivity. cbn [bind].
    rewrite (proj2 (path2_Ok weatherData _ "coord" "lat" eq_refl eq_refl)
               (conj Nc eq_refl)).
    rewrite (proj2 (path2_Ok weatherData _ "coord" "lon" eq_refl eq_refl)
               (conj Nc eq_refl)).
    rewrite (proj2 (path2_Ok weatherData _ "main" "feels_like" eq_refl eq_refl)
               (conj Nm eq_refl)). cbn [bind]. rewrite Hb. cbn [bind].
    rewrite !(get_total weatherData _ N) by reflexivity. cbn [bind].
    assert (O : forall v k, plain_key k = true ->
                get_opt v (lit k) = Ok (field v k)).
    { intros v k Pk. unfold get_opt. destruct (is_nullish v) eqn:Nv.
      - destruct v; try discriminate Nv; reflexivity.
      - exact (get_total v k Nv Pk). }
    rewrite !O by reflexivity. cbn [bind].
    rewrite (proj2 (path2_Ok weatherData _ "sys" "country" eq_refl eq_refl)
               (conj Ns eq_refl)).
    rewrite (proj2 (path2_Ok weatherData _ "main" "humidity" eq_refl eq_refl)
               (conj Nm eq_refl)).
    rewrite (proj2 (path2_Ok weatherData _ "main" "pressure" eq_refl eq_refl)
               (conj Nm eq_refl)).
    cbn [bind]. eexists. reflexivity.
Qed.

Lemma mapM_Ok_Forall {A B : Type} (f : A -> result B) (l : list A)
  (l' : list B) :
  mapM f l = Ok l' -> Forall (fun a => exists b, f a = Ok b) l.
Proof.
  intros H. apply mapM_Ok_Forall2 in H.
  induction H as [| a b l l' Hab _ IH]; constructor; eauto.
Qed.

Lemma news_article_Ok_iff (article : value) :
  (exists r, news_article article = Ok r)
  <-> is_nullish (field article "source") = false.
Proof.
  split.
  - intros (r & H). unfold news_article in H. repeat bind_inv H.
    match goal with
    | G : path _ [_; _] = Ok _ |- _ =>
        apply path2_Ok in G; [destruct G as [G _]; exact G | reflexivity ..]
    end.
  - intros N. eexists.
    apply (news_article_shape article (field (field article "source") "name")).
    apply path2_Ok; [reflexivity .. | auto].
Qed.

(** X9. The news payload is shaped if and only if its [articles] is an array
    and every article in it has a [source] that is neither missing nor
    [null]: one article without a source fails the whole payload, and
    nothing else about an article can. *)
Theorem news_payload_is_shaped_iff (newsData : value) :
  (exists r, processedNews newsData = Ok r)
  <-> exists articles,
        field newsData "articles" = VArr articles
        /\ Forall (fun a => is_nullish (field a "source") = false) articles.
Proof.
  split.
  - intros (r & H).
    destruct (processedNews_shape _ _ H) as (l & l' & Hl & Hmap & _).
    exists l. split; [exact Hl |].
    apply mapM_Ok_Forall in Hmap.
    apply (Forall_impl _ (P := fun a => exists b, news_article a = Ok b));
      [| exact Hmap].
    intros a Ha. apply news_article_Ok_iff. exact Ha.
  - intros (l & Hl & Hall).
    assert (N : is_nullish newsData = false).
    { destruct newsData; try reflexivity; discriminate Hl. }
    unfold processedNews.
    rewrite !(get_total newsData _ N) by reflexivity. cbn [bind].
    rewrite Hl. unfold call_map.
    destruct (mapM_Forall_Ok news_article l) as (l' & Hl').
    + apply (Forall_impl _ (P := fun a => is_nullish (field a "source") = false));
        [| exact Hall].
      intros a Ha. apply news_article_Ok_iff. exact Ha.
    + rewrite Hl'. eexists. reflexivity.
Qed.

(** * Properties of the page script *)

Lemma trim_start_blank (s : jsstring) :
  forallb is_white_space s = true -> trim_start s = [].
Proof.
  induction s as [| c s IH]; [reflexivity |]. cbn [forallb trim_start].
  intros H. apply andb_prop in H. destruct H as [Hc Hs].
  rewrite Hc. exact (IH Hs).
Qed.

Lemma trim_blank (s : jsstring) :
  forallb is_white_space s = true -> trim s = [].
Proof.
  intros H. unfold trim. rewrite (trim_start_blank s H). reflexivity.
Qed.

(** X10. With nothing but white space in the city field, [fetchWeatherData]
    hides the weather and the news, shows "Please enter a city name", and
    does nothing else: no request is made and the loading indicator is not
    touched. *)
Theorem blank_city_is_refused_without_a_request
  (host : Host) (p : page)
  (Hblank : forallb is_white_space (cityInput_value p) = true) :
  run_ui (fetchWeatherData host) p
  = (Done tt,
     [ClassListRemove "errorMessage" "show";
      SetDisplay "weatherSection" "none";
      SetDisplay "newsSection" "none";
      SetTextContent "errorMessage" (str "Please enter a city name");
      ClassListAdd "errorMessage" "show"]).
Proof.
  unfold run_ui, fetchWeatherData. rewrite (trim_blank _ Hblank). reflexivity.
Qed.

(** ** What the display functions write *)

Ltac pure_step :=
  match goal with
  | |- context [pure ?r _ _] =>
      destruct r eqn:?; cbn [pure write done throw]
  end.

Ltac appended :=
  do 2 eexists; split;
  [ match goal with
    | |- (?r0, (?o ++ ?l) ++ ?l') = _ =>
        transitivity (r0, o ++ (l ++ l'));
        [rewrite <- app_assoc; reflexivity | reflexivity]
    | |- (?r0, ?o ++ ?l) = _ => reflexivity
    | |- (?r0, ?o) = _ =>
        transitivity (r0, o ++ []);
        [rewrite app_nil_r; reflexivity | reflexivity]
    end
  | ].

Ltac stopped :=
  appended; split; [reflexivity | discriminate].

Lemma displayWeatherData_writes
  (host : Host) (weather : value) (p : page) (ops : list dom_op) :
  exists r added,
    displayWeatherData host weather p ops = (r, ops ++ added)
    /\ forallb weather_write added = true
    /\ (r = Done tt ->
        exists before,
          added = before ++ [SetDisplay "weatherSection" "block"]).
Proof.
  unfold displayWeatherData, showWeatherSection, bindUI.
  cbn [pure write done throw].
  repeat (pure_step; rewrite <- ?app_assoc; cbn [app]; [| stopped]).
  match goal with
  | |- context [ToBoolean ?v] => destruct (ToBoolean v)
  end; cbn [pure write done throw].
  - repeat (pure_step; rewrite <- ?app_assoc; cbn [app]; [| stopped]).
    unfold write. appended. split; [reflexivity |]. intros _.
    eexists. reflexivity.
  - unfold write. appended. split; [reflexivity |]. intros _.
    eexists. reflexivity.
Qed.

Lemma for_each_cards
  (host : Host) (l : list value) (p : page) (ops : list dom_op) :
  for_each
    (fun article =>
       newsCard <<- pure (createNewsCard host article) ;;
       write (AppendChild "newsArticles" newsCard)) l p ops
  = (match snd (cards_until_failure host l) with
     | None => Done tt
     | Some e => Raise (Raised e)
     end,
     ops ++ map (AppendChild "newsArticles") (fst (cards_until_failure host l))).
Proof.
  revert ops. induction l as [| a l IH]; intros ops; cbn [for_each].
  - unfold done. cbn. rewrite app_nil_r. reflexivity.
  - unfold bindUI at 1. unfold bindUI at 1. cbn [cards_until_failure].
    destruct (createNewsCard host a) as [c | e]; cbn [pure write].
    + rewrite IH. destruct (cards_until_failure host l) as [cs failure].
      cbn [fst snd map]. rewrite <- app_assoc. reflexivity.
    + cbn. rewrite app_nil_r. reflexivity.
Qed.

Lemma cards_are_news_writes (cs : list element) :
  forallb news_write (map (AppendChild "newsArticles") cs) = true.
Proof.
  induction cs as [| c cs IH]; [reflexivity | exact IH].
Qed.

Lemma displayNewsData_writes
  (host : Host) (articles : value) (p : page) (ops : list dom_op) :
  exists r added,
    displayNewsData host articles p ops = (r, ops ++ added)
    /\ forallb news_write added = true
    /\ (r = Done tt ->
        exists before, added = before ++ [SetDisplay "newsSection" "block"]).
Proof.
  unfold displayNewsData, showNewsSection.
  unfold bindUI at 1. cbn [write]. unfold bindUI at 1.
  destruct articles; cbn [call_forEach throw];
    try (exists (Raise (Raised (cannot_read "undefined" (lit "forEach")))),
           [SetInnerHTML "newsArticles" []];
         split; [reflexivity | split; [reflexivity | discriminate]]);
    try (exists (Raise (Raised (cannot_read "null" (lit "forEach")))),
           [SetInnerHTML "newsArticles" []];
         split; [reflexivity | split; [reflexivity | discriminate]]);
    try (eexists (Raise _), [SetInnerHTML "newsArticles" []];
         split; [reflexivity | split; [reflexivity | discriminate]]).
  rewrite for_each_cards.
  destruct (cards_until_failure host l) as [cs [e |]]; cbn [fst snd].
  - exists (Raise (Raised e)),
      (SetInnerHTML "newsArticles" [] :: map (AppendChild "newsArticles") cs).
    split; [rewrite <- app_assoc; reflexivity |].
    split; [exact (cards_are_news_writes cs) | discriminate].
  - exists (Done tt),
      ((SetInnerHTML "newsArticles" [] :: map (AppendChild "newsArticles") cs)
       ++ [SetDisplay "newsSection" "block"]).
    split; [unfold write; rewrite <- !app_assoc; reflexivity |].
    split.
    + cbn [app forallb]. rewrite forallb_app, cards_are_news_writes.
      reflexivity.
    + intros _. eexists. reflexivity.
Qed.

(** ** Reading the page off the writes *)

Lemma fold_left_neutral {A B : Type} (f : A -> B -> A) (P : B -> bool)
  (l : list B) (a : A) :
  (forall a b, P b = true -> f a b = a) ->
  forallb P l = true -> fold_left f l a = a.
Proof.
  intros Hf. revert a. induction l as [| b l IH]; intros a; [reflexivity |].
  cbn [forallb fold_left]. intros H. apply andb_prop in H.
  destruct H as [Hb Hl]. rewrite (Hf a b Hb). exact (IH a Hl).
Qed.

Lemma display_of_app (id : string) (a b : list dom_op) :
  display_of id (a ++ b)
  = match display_of id b with
    | Some d => Some d
    | None => display_of id a
    end.
Proof.
  unfold display_of. rewrite fold_left_app.
  generalize (fold_left
                (fun shown op =>
                   match op with
                   | SetDisplay id' d =>
                       if String.eqb id id' then Some d else shown
                   | _ => shown
                   end) a None).
  induction b as [| op b IH]; intros acc; [reflexivity |].
  cbn [fold_left]. destruct op; try apply IH.
  destruct (String.eqb id id0); [| apply IH].
  rewrite (IH (Some display)).
  destruct (fold_left _ b None); reflexivity.
Qed.

Lemma text_of_app (id : string) (a b : list dom_op) :
  text_of id (a ++ b)
  = match text_of id b with
    | Some v => Some v
    | None => text_of id a
    end.
Proof.
  unfold text_of. rewrite fold_left_app.
  generalize (fold_left
                (fun text op =>
                   match op with
                   | SetTextContent id' v =>
                       if String.eqb id id' then Some v else text
                   | _ => text
                   end) a None).
  induction b as [| op b IH]; intros acc; [reflexivity |].
  cbn [fold_left]. destruct op; try apply IH.
  destruct (String.eqb id id0); [| apply IH].
  rewrite (IH (Some text)).
  destruct (fold_left _ b None); reflexivity.
Qed.

Lemma fetches_app (a b : list dom_op) :
  fetches (a ++ b) = fetches a ++ fetches b.
Proof.
  induction a as [| op a IH]; [reflexivity |].
  destruct op; cbn [app fetches]; rewrite IH; reflexivity.
Qed.

Lemma weather_write_display (op : dom_op) :
  weather_write op = true -> display_write op = true.
Proof. unfold display_write. intros ->. reflexivity. Qed.

Lemma news_write_display (op : dom_op) :
  news_write op = true -> display_write op = true.
Proof. unfold display_write. intros ->. apply orb_true_r. Qed.

Lemma display_writes_app (ww nw : list dom_op) :
  forallb weather_write ww = true -> forallb news_write nw = true ->
  forallb display_write (ww ++ nw) = true.
Proof.
  intros Hw Hn. rewrite forallb_app. apply andb_true_intro. split.
  - rewrite forallb_forall in *. intros op Hop.
    exact (weather_write_display op (Hw op Hop)).
  - rewrite forallb_forall in *. intros op Hop.
    exact (news_write_display op (Hn op Hop)).
Qed.

Ltac string_cases :=
  repeat match goal with
         | H : context [String.eqb ?a ?b] |- _ =>
             destruct (String.eqb_spec a b); subst;
             cbn [andb orb existsb] in H
         end.

Lemma loading_untouched (l : list dom_op) :
  forallb display_write l = true -> display_of "loadingIndicator" l = None.
Proof.
  intros H. unfold display_of.
  apply (fold_left_neutral _ display_write); [| exact H].
  intros a [] Hb; try reflexivity.
  unfold display_write, weather_write, news_write in Hb.
  string_cases; try discriminate Hb; reflexivity.
Qed.

Lemma error_text_untouched (l : list dom_op) :
  forallb display_write l = true -> text_of "errorMessage" l = None.
Proof.
  intros H. unfold text_of.
  apply (fold_left_neutral _ display_write); [| exact H].
  intros a [] Hb; try reflexivity.
  unfold display_write, weather_write, news_write in Hb.
  cbn [existsb] in Hb. string_cases; try discriminate Hb; reflexivity.
Qed.

Lemma error_class_untouched (l : list dom_op) (shown : bool) :
  forallb display_write l = true ->
  fold_left
    (fun has op =>
       match op with
       | ClassListAdd id' c =>
           if String.eqb "errorMessage" id' && String.eqb "show" c
           then true else has
       | ClassListRemove id' c =>
           if String.eqb "errorMessage" id' && String.eqb "show" c
           then false else has
       | _ => has
       end) l shown = shown.
Proof.
  intros H. apply (fold_left_neutral _ display_write); [| exact H].
  intros a [] Hb; try reflexivity; discriminate Hb.
Qed.

Lemma no_fetch_in_display_writes (l : list dom_op) :
  forallb display_write l = true -> fetches l = [].
Proof.
  induction l as [| op l IH]; [reflexivity |]. cbn [forallb].
  intros H. apply andb_prop in H. destruct H as [Hop Hl].
  destruct op; try discriminate Hop; exact (IH Hl).
Qed.

Lemma weather_section_untouched (l : list dom_op) :
  forallb news_write l = true -> display_of "weatherSection" l = None.
Proof.
  intros H. unfold display_of.
  apply (fold_left_neutral _ news_write); [| exact H].
  intros a [] Hb; try reflexivity.
  unfold news_write in Hb. string_cases; try discriminate Hb; reflexivity.
Qed.

(** ** The steps of [fetchWeatherData] *)

Lemma displayNoNews_writes (p : page) (ops : list dom_op) :
  displayNoNews p ops
  = (Done tt,
     ops ++ [SetInnerHTML "newsArticles" no_news_markup;
             SetDisplay "newsSection" "block"]).
Proof.
  unfold displayNoNews, showNewsSection, bindUI, write.
  rewrite <- app_assoc. reflexivity.
Qed.

(** What the [try] of [fetchWeatherData] adds to the writes: the request, the
    hiding of the loading indicator, then writes of [displayWeatherData],
    then writes of the news functions; all of them when it completes. *)
Lemma fetchWeatherData_try_writes
  (host : Host) (city : jsstring) (p : page) (ops : list dom_op) :
  exists r prefix ww nw,
    fetchWeatherData_try host city p ops = (r, ops ++ prefix ++ ww ++ nw)
    /\ (prefix = []
        \/ (exists url, prefix = [Fetch url])
        \/ (exists url,
              prefix = [Fetch url; SetDisplay "loadingIndicator" "none"]))
    /\ forallb weather_write ww = true
    /\ forallb news_write nw = true
    /\ (r = Done tt ->
        (exists url,
           prefix = [Fetch url; SetDisplay "loadingIndicator" "none"])
        /\ (exists before,
              ww = before ++ [SetDisplay "weatherSection" "block"])
        /\ (exists before,
              nw = before ++ [SetDisplay "newsSection" "block"])).
Proof.
  unfold fetchWeatherData_try. unfold bindUI at 1.
  match goal with
  | |- context [pure ?r _ _] => destruct r as [url | e]; cbn [pure]
  end.
  2: { exists (Raise (Raised e)), [], [], []. rewrite app_nil_r.
       repeat (split; [solve [auto] |]). discriminate. }
  unfold bindUI at 1. unfold fetch_json.
  destruct (fetch p url) as [message | code message | code data].
  1, 2: eexists (Raise _), [Fetch url], [], [];
    (split; [reflexivity |]); (split; [eauto |]);
    (split; [reflexivity |]); (split; [reflexivity |]); discriminate.
  unfold bindUI at 1.
  destruct (negb (response_ok code)).
  { unfold bindUI at 1.
    match goal with
    | |- context [pure ?r _ _] => destruct r as [message | e]; cbn [pure throw]
    end;
      eexists (Raise _), [Fetch url], [], [];
      (split; [reflexivity |]); (split; [eauto |]);
      (split; [reflexivity |]); (split; [reflexivity |]); discriminate. }
  cbn [done]. unfold bindUI at 1. unfold hideLoading. cbn [write].
  unfold bindUI at 1.
  match goal with
  | |- context [pure ?r _ _] => destruct r as [weather | e]; cbn [pure]
  end.
  2: { eexists (Raise _), [Fetch url; SetDisplay "loadingIndicator" "none"],
         [], [].
       split; [rewrite <- app_assoc; reflexivity |]. split; [eauto |].
       split; [reflexivity |]. split; [reflexivity |]. discriminate. }
  unfold bindUI at 1.
  destruct (displayWeatherData_writes host weather p
              ((ops ++ [Fetch url]) ++ [SetDisplay "loadingIndicator" "none"]))
    as (rw & ww & Hw & Hww & Hdone).
  rewrite Hw.
  assert (Hprefix :
    ((ops ++ [Fetch url]) ++ [SetDisplay "loadingIndicator" "none"]) ++ ww
    = ops ++ [Fetch url; SetDisplay "loadingIndicator" "none"] ++ ww).
  { rewrite <- !app_assoc. reflexivity. }
  destruct rw as [[] | t].
  2: { exists (Raise t), [Fetch url; SetDisplay "loadingIndicator" "none"],
         ww, [].
       split; [rewrite Hprefix, app_nil_r; reflexivity |]. split; [eauto |].
       split; [exact Hww |]. split; [reflexivity |]. discriminate. }
  rewrite Hprefix. unfold bindUI at 1.
  match goal with
  | |- context [pure ?r _ _] => destruct r as [news | e]; cbn [pure]
  end.
  2: { exists (Raise (Raised e)),
         [Fetch url; SetDisplay "loadingIndicator" "none"], ww, [].
       split; [rewrite app_nil_r; reflexivity |]. split; [eauto |].
       split; [exact Hww |]. split; [reflexivity |]. discriminate. }
  unfold bindUI at 1.
  match goal with
  | |- context [pure ?r _ _] => destruct r as [has_news | e]; cbn [pure]
  end.
  2: { exists (Raise (Raised e)),
         [Fetch url; SetDisplay "loadingIndicator" "none"], ww, [].
       split; [rewrite app_nil_r; reflexivity |]. split; [eauto |].
       split; [exact Hww |]. split; [reflexivity |]. discriminate. }
  destruct has_news.
  - unfold bindUI at 1.
    match goal with
    | |- context [pure ?r _ _] => destruct r as [articles | e]; cbn [pure]
    end.
    2: { exists (Raise (Raised e)),
           [Fetch url; SetDisplay "loadingIndicator" "none"], ww, [].
         split; [rewrite app_nil_r; reflexivity |]. split; [eauto |].
         split; [exact Hww |]. split; [reflexivity |]. discriminate. }
    destruct (displayNewsData_writes host articles p
                (ops ++ [Fetch url; SetDisplay "loadingIndicator" "none"]
                 ++ ww)) as (rn & nw & Hn & Hnw & Hndone).
    rewrite Hn.
    exists rn, [Fetch url; SetDisplay "loadingIndicator" "none"], ww, nw.
    split; [rewrite <- !app_assoc; reflexivity |]. split; [eauto |].
    split; [exact Hww |]. split; [exact Hnw |].
    intros Hr. split; [eauto |]. split; [exact (Hdone eq_refl) |].
    exact (Hndone Hr).
  - rewrite displayNoNews_writes.
    exists (Done tt), [Fetch url; SetDisplay "loadingIndicator" "none"], ww,
      [SetInnerHTML "newsArticles" no_news_markup;
       SetDisplay "newsSection" "block"].
    split; [rewrite <- !app_assoc; reflexivity |]. split; [eauto |].
    split; [exact Hww |]. split; [reflexivity |].
    intros _. split; [eauto |]. split; [exact (Hdone eq_refl) |].
    exists [SetInnerHTML "newsArticles" no_news_markup]. reflexivity.
Qed.

Lemma fetchWeatherData_run (host : Host) (p : page) :
  run_ui (fetchWeatherData host) p
  = match trim (cityInput_value p) with
    | [] =>
        (Done tt,
         [ClassListRemove "errorMessage" "show";
          SetDisplay "weatherSection" "none";
          SetDisplay "newsSection" "none";
          SetTextContent "errorMessage" (str "Please enter a city name");
          ClassListAdd "errorMessage" "show"])
    | c :: s =>
        match fetchWeatherData_try host (c :: s) p
                [ClassListRemove "errorMessage" "show";
                 SetDisplay "weatherSection" "none";
                 SetDisplay "newsSection" "none";
                 SetDisplay "loadingIndicator" "block"] with
        | (Done a, ops) => (Done a, ops)
        | (Raise error, ops) =>
            (Done tt,
             ops ++ [LogError "Error fetching data:" error;
                     SetDisplay "loadingIndicator" "none";
                     SetTextContent "errorMessage"
                       (or_else (VStr (thrown_message error))
                          (str "Failed to fetch data. Please try again."));
                     ClassListAdd "errorMessage" "show"])
        end
    end.
Proof.
  unfold run_ui, fetchWeatherData.
  destruct (trim (cityInput_value p)) as [| c s]; [reflexivity |].
  unfold try_catch_ui, hideErrorMessage, hideWeatherSection,
    hideNewsSection, showLoading, showErrorMessage, hideLoading, bindUI, write.
  cbn [ToBoolean negb app].
  destruct (fetchWeatherData_try host (c :: s) p _) as [[a | error] ops];
    [reflexivity |].
  rewrite <- !app_assoc. reflexivity.
Qed.

Lemma shown_message_not_empty (m : jsstring) :
  exists m',
    or_else (VStr m) (str "Failed to fetch data. Please try again.") = VStr m'
    /\ m' <> [].
Proof.
  destruct m as [| c m]; eexists; (split; [reflexivity | discriminate]).
Qed.

(** X11. [fetchWeatherData] always runs to its end, whatever the city field
    holds and whatever [fetch] answers, having made at most one request. It
    never leaves the loading indicator showing. When it leaves the error box
    shown, the box holds a message that is not empty; when it does not, the
    weather section and the news section are both shown. *)
Theorem fetchWeatherData_always_settles (host : Host) (p : page) :
  exists ops,
    run_ui (fetchWeatherData host) p = (Done tt, ops)
    /\ (List.length (fetches ops) <= 1)%nat
    /\ display_of "loadingIndicator" ops <> Some "block"
    /\ (has_class "errorMessage" "show" ops = true ->
        exists m, text_of "errorMessage" ops = Some (VStr m) /\ m <> [])
    /\ (has_class "errorMessage" "show" ops = false ->
        display_of "weatherSection" ops = Some "block"
        /\ display_of "newsSection" ops = Some "block").
Proof.
  rewrite fetchWeatherData_run.
  destruct (trim (cityInput_value p)) as [| c s].
  { eexists. split; [reflexivity |]. cbn.
    split; [lia |]. split; [discriminate |].
    split; [intros _; eexists; split; [reflexivity | discriminate]
           | discriminate]. }
  destruct (fetchWeatherData_try_writes host (c :: s) p
              [ClassListRemove "errorMessage" "show";
               SetDisplay "weatherSection" "none";
               SetDisplay "newsSection" "none";
               SetDisplay "loadingIndicator" "block"])
    as (r & prefix & ww & nw & Hrun & Hprefix & Hww & Hnw & Hdone).
  rewrite Hrun.
  pose proof (display_writes_app ww nw Hww Hnw) as Hd.
  assert (Hfetch : (List.length (fetches prefix) <= 1)%nat).
  { destruct Hprefix as [-> | [(url & ->) | (url & ->)]]; cbn; lia. }
  destruct r as [[] | error].
  - destruct (Hdone eq_refl)
      as ((url & ->) & (bw & ->) & (bn & ->)).
    eexists. split; [reflexivity |].
    split.
    { rewrite (fetches_app [_; _; _; _]), (fetches_app [_; _]).
      rewrite (no_fetch_in_display_writes _ Hd). cbn. lia. }
    split.
    { rewrite (display_of_app _ [_; _; _; _]), (display_of_app _ [_; _]).
      rewrite (loading_untouched _ Hd). cbn. discriminate. }
    assert (Hclass :
      has_class "errorMessage" "show"
        ([ClassListRemove "errorMessage" "show";
          SetDisplay "weatherSection" "none";
          SetDisplay "newsSection" "none";
          SetDisplay "loadingIndicator" "block"]
         ++ [Fetch url; SetDisplay "loadingIndicator" "none"]
         ++ (bw ++ [SetDisplay "weatherSection" "block"])
         ++ bn ++ [SetDisplay "newsSection" "block"]) = false).
    { unfold has_class.
      rewrite (fold_left_app _ [_; _; _; _]), (fold_left_app _ [_; _]).
      rewrite (error_class_untouched _ _ Hd). reflexivity. }
    split; [rewrite Hclass; discriminate |]. intros _. split.
    + rewrite (display_of_app _ [_; _; _; _]), (display_of_app _ [_; _]).
      rewrite (display_of_app _ (bw ++ _)).
      rewrite (weather_section_untouched _ Hnw).
      rewrite (display_of_app _ bw). reflexivity.
    + rewrite !app_assoc. rewrite display_of_app. reflexivity.
  - destruct (shown_message_not_empty (thrown_message error)) as (m & Hm & Hne).
    rewrite Hm. eexists. split; [reflexivity |].
    split.
    { rewrite (fetches_app (_ ++ _)), (fetches_app [_; _; _; _]).
      rewrite (fetches_app prefix), (no_fetch_in_display_writes _ Hd).
      rewrite app_nil_r. cbn [fetches app]. rewrite app_nil_r. exact Hfetch. }
    split.
    { rewrite !app_assoc. rewrite display_of_app. cbn. discriminate. }
    split.
    + intros _. exists m. split; [| exact Hne].
      rewrite !app_assoc. rewrite text_of_app. reflexivity.
    + intros Hclass. exfalso. revert Hclass.
      rewrite !app_assoc. unfold has_class. rewrite fold_left_app.
      cbn. discriminate.
Qed.

(** ** The page in front of the server *)

(** Every answer of [/api/data] other than 200 carries one of three error
    texts, next to one more string. *)
Lemma data_route_failure_body
  (host : Host) (env : process_env) (req : request) (w : world)
  (resp : http_response) (t : list event) :
  run (get_api_data host env req) w = (Ok resp, t) ->
  status resp <> 200 ->
  exists message k x,
    In message ["City parameter is required"; "City not found";
                "Failed to fetch data"]
    /\ response_ok (status resp) = false
    /\ body resp = obj [("error", str message); (k, VStr x)].
Proof.
  run_route.
  destruct (ToBoolean (query_param req "city")); cbn.
  2: { intros [= <- <-] _. do 3 eexists.
       split; [left; reflexivity |]. split; reflexivity. }
  destruct (weatherUrl host env (query_param req "city")) as [wurl | e]
    eqn:Hurl; cbn.
  2: { no_response Hurl. intros [= <- <-] _. do 3 eexists.
       split; [right; right; left; reflexivity |]. split; reflexivity. }
  destruct (w wurl) as [r | response message] eqn:Hw; cbn.
  - destruct (processedWeather host (data r)) as [weather | e] eqn:Hpw; cbn.
    + destruct (weatherUrl_newsUrl host env _ wurl Hurl) as (nurl & Hnurl).
      unfold newsData_try, bindM, eval, axios_get. rewrite Hnurl. cbn.
      destruct (w nurl) as [nr | response message] eqn:Hn; cbn.
      * match goal with
        | |- context [bind ?m ?f] => destruct (bind m f) as [news | e] eqn:Hs
        end; cbn; intros [= <- <-] H; contradiction H; reflexivity.
      * intros [= <- <-] H; contradiction H; reflexivity.
    + change (processedWeather host (data r))
        with (processedData host (data r)) in Hpw.
      no_response Hpw. intros [= <- <-] _. do 3 eexists.
      split; [right; right; left; reflexivity |]. split; reflexivity.
  - destruct response as [s |]; cbn.
    + destruct (s =? 404); cbn; intros [= <- <-] _; do 3 eexists.
      * split; [right; left; reflexivity |]. split; reflexivity.
      * split; [right; right; left; reflexivity |]. split; reflexivity.
    + intros [= <- <-] _. do 3 eexists.
      split; [right; right; left; reflexivity |]. split; reflexivity.
Qed.

(** X12. Whenever [/api/data] answers the page's request with anything but
    200, the page shows the [error] text of that answer, which is one of
    "City parameter is required", "City not found" and "Failed to fetch
    data"; the loading indicator, the weather and the news are hidden. *)
Theorem server_failure_is_shown
  (server browser : Host) (env : process_env) (req : request) (w : world)
  (resp : http_response) (t : list event) (p : page)
  (c : code_unit) (s q : jsstring)
  (Hserver : run (get_api_data server env req) w = (Ok resp, t))
  (Hstatus : status resp <> 200)
  (Hcity : trim (cityInput_value p) = c :: s)
  (Hq : encodeURIComponent browser (VStr (c :: s)) = Ok q)
  (Hfetch : fetch p (lit "/api/data?city=" ++ q) = served resp) :
  exists message,
    In message ["City parameter is required"; "City not found";
                "Failed to fetch data"]
    /\ field (body resp) "error" = str message
    /\ run_ui (fetchWeatherData browser) p
       = (Done tt,
          [ClassListRemove "errorMessage" "show";
           SetDisplay "weatherSection" "none";
           SetDisplay "newsSection" "none";
           SetDisplay "loadingIndicator" "block";
           Fetch (lit "/api/data?city=" ++ q);
           LogError "Error fetching data:" (NewError (lit message));
           SetDisplay "loadingIndicator" "none";
           SetTextContent "errorMessage" (str message);
           ClassListAdd "errorMessage" "show"]).
Proof.
  destruct (data_route_failure_body server env req w resp t Hserver Hstatus)
    as (message & k & x & Hin & Hok & Hbody).
  exists message. split; [exact Hin |].
  split; [rewrite Hbody; reflexivity |].
  rewrite fetchWeatherData_run, Hcity.
  unfold fetchWeatherData_try. unfold bindUI at 1. rewrite Hq. cbn [bind pure].
  unfold bindUI at 1. unfold fetch_json, API_BASE_URL. cbn [app].
  rewrite Hfetch. unfold served. rewrite Hok, Hbody.
  destruct Hin as [<- | [<- | [<- | []]]]; reflexivity.
Qed.

(** A 200 of [/api/data] carries the shaped report and the news. *)
Lemma data_route_success_body
  (host : Host) (env : process_env) (req : request) (w : world)
  (resp : http_response) (t : list event) :
  run (get_api_data host env req) w = (Ok resp, t) ->
  status resp = 200 ->
  exists d weather news,
    processedData host d = Ok weather
    /\ body resp = obj [("weather", weather); ("news", news)].
Proof.
  run_route.
  destruct (ToBoolean (query_param req "city")); cbn.
  2: { intros [= <- <-]; discriminate. }
  destruct (weatherUrl host env (query_param req "city")) as [wurl | e]
    eqn:Hurl; cbn.
  2: { no_response Hurl. intros [= <- <-]; discriminate. }
  destruct (w wurl) as [r | response message] eqn:Hw; cbn.
  - destruct (processedWeather host (data r)) as [weather | e] eqn:Hpw; cbn.
    + destruct (weatherUrl_newsUrl host env _ wurl Hurl) as (nurl & Hnurl).
      unfold newsData_try, bindM, eval, axios_get. rewrite Hnurl. cbn.
      destruct (w nurl) as [nr | response message] eqn:Hn; cbn.
      * match goal with
        | |- context [bind ?m ?f] => destruct (bind m f) as [news | e] eqn:Hs
        end; cbn; intros [= <- <-] _; do 3 eexists;
          (split; [exact Hpw | reflexivity]).
      * intros [= <- <-] _; do 3 eexists; (split; [exact Hpw | reflexivity]).
    + change (processedWeather host (data r))
        with (processedData host (data r)) in Hpw.
      no_response Hpw. intros [= <- <-]; discriminate.
  - destruct response as [s |]; cbn.
    + destruct (s =? 404); cbn; intros [= <- <-]; discriminate.
    + intros [= <- <-]; discriminate.
Qed.

(** What [displayWeatherData] writes does not depend on what was written
    before. *)
Lemma displayWeatherData_frame
  (host : Host) (weather : value) (p : page) (ops : list dom_op) :
  displayWeatherData host weather p ops
  = (fst (run_ui (displayWeatherData host weather) p),
     ops ++ snd (run_ui (displayWeatherData host weather) p)).
Proof.
  unfold run_ui, displayWeatherData, showWeatherSection, bindUI.
  cbn [pure write done throw].
  repeat (pure_step; cbn [fst snd app]; rewrite <- ?app_assoc; cbn [app];
          [| rewrite ?app_nil_r; reflexivity]).
  match goal with
  | |- context [ToBoolean ?v] => destruct (ToBoolean v)
  end; cbn [pure write done throw].
  - repeat (pure_step; cbn [fst snd app]; rewrite <- ?app_assoc; cbn [app];
            [| rewrite ?app_nil_r; reflexivity]).
    unfold write. cbn [fst snd app]. rewrite <- ?app_assoc. reflexivity.
  - unfold write. cbn [fst snd app]. rewrite <- ?app_assoc. reflexivity.
Qed.

Lemma fetchWeatherData_try_no_news
  (host : Host) (city q : jsstring) (p : page) (ops shown : list dom_op)
  (W : value) :
  encodeURIComponent host (VStr city) = Ok q ->
  fetch p (lit "/api/data?city=" ++ q)
  = Json 200 (obj [("weather", W); ("news", newsData_unavailable)]) ->
  run_ui (displayWeatherData host W) p = (Done tt, shown) ->
  fetchWeatherData_try host city p ops
  = (Done tt,
     ops ++ [Fetch (lit "/api/data?city=" ++ q);
             SetDisplay "loadingIndicator" "none"]
     ++ shown
     ++ [SetInnerHTML "newsArticles" no_news_markup;
         SetDisplay "newsSection" "block"]).
Proof.
  intros Hq Hfetch Hweather.
  unfold fetchWeatherData_try. unfold bindUI at 1. rewrite Hq.
  cbn [bind pure]. unfold bindUI at 1. unfold fetch_json, API_BASE_URL.
  cbn [app]. rewrite Hfetch.
  change (negb (response_ok 200)) with false. cbv iota.
  unfold bindUI at 1. cbn [done].
  unfold bindUI at 1. unfold hideLoading, write.
  unfold bindUI at 1.
  change (get (obj [("weather", W); ("news", newsData_unavailable)])
            (lit "weather")) with (Ok W).
  cbn [pure]. unfold bindUI at 1.
  rewrite displayWeatherData_frame, Hweather. cbn [fst snd].
  unfold bindUI at 1.
  change (get (obj [("weather", W); ("news", newsData_unavailable)])
            (lit "news")) with (Ok newsData_unavailable).
  cbn [pure]. unfold bindUI at 1.
  match goal with
  | |- context [pure ?r _ _] => change r with (Ok false)
  end.
  cbn [pure]. unfold displayNoNews, showNewsSection, bindUI, write.
  rewrite <- !app_assoc. reflexivity.
Qed.

Lemma wire_weather_and_unavailable_news (o : list (jsstring * value)) :
  wire (obj [("weather", VObj o); ("news", newsData_unavailable)])
  = obj [("weather", wire (VObj o)); ("news", newsData_unavailable)].
Proof.
  reflexivity.
Qed.

(** X13. When [/api/data] answers with the placeholder for unavailable news,
    the page shows the weather and, in place of the cards, the line "No news
    articles available for this location."; no error is shown. *)
Theorem unavailable_news_is_shown_as_no_news
  (server browser : Host) (env : process_env) (req : request) (w : world)
  (resp : http_response) (t : list event) (p : page)
  (c : code_unit) (s q : jsstring) (shown : list dom_op)
  (Hserver : run (get_api_data server env req) w = (Ok resp, t))
  (Hnews : field (body resp) "news" = newsData_unavailable)
  (Hcity : trim (cityInput_value p) = c :: s)
  (Hq : encodeURIComponent browser (VStr (c :: s)) = Ok q)
  (Hfetch : fetch p (lit "/api/data?city=" ++ q) = served resp)
  (Hweather :
     run_ui (displayWeatherData browser (wire (field (body resp) "weather"))) p
     = (Done tt, shown)) :
  run_ui (fetchWeatherData browser) p
  = (Done tt,
     [ClassListRemove "errorMessage" "show";
      SetDisplay "weatherSection" "none";
      SetDisplay "newsSection" "none";
      SetDisplay "loadingIndicator" "block";
      Fetch (lit "/api/data?city=" ++ q);
      SetDisplay "loadingIndicator" "none"]
     ++ shown
     ++ [SetInnerHTML "newsArticles" no_news_markup;
         SetDisplay "newsSection" "block"]).
Proof.
  destruct (Z.eq_dec (status resp) 200) as [H200 | Hnot].
  - destruct (data_route_success_body server env req w resp t Hserver H200)
      as (d & weather & news & Hshape & Hbody).
    assert (Hobj : exists o, weather = VObj o).
    { destruct (processedData_shape server d weather Hshape)
        as (? & ? & ? & ? & ? & ? & ? & ? & ? & ? & ? & ? & _ & _ & _ & _ & ->).
      eexists. reflexivity. }
    destruct Hobj as (o & ->).
    rewrite Hbody in Hnews, Hweather.
    change (field (obj [("weather", VObj o); ("news", news)]) "news")
      with news in Hnews.
    subst news.
    change (field (obj [("weather", VObj o); ("news", newsData_unavailable)])
              "weather") with (VObj o) in Hweather.
    unfold served in Hfetch.
    rewrite H200, Hbody, wire_weather_and_unavailable_news in Hfetch.
    rewrite fetchWeatherData_run, Hcity.
    rewrite (fetchWeatherData_try_no_news browser (c :: s) q p _ shown
               (wire (VObj o)) Hq Hfetch Hweather).
    reflexivity.
  - destruct (data_route_failure_body server env req w resp t Hserver Hnot)
      as (message & k & x & _ & _ & Hbody).
    rewrite Hbody in Hnews. exfalso. revert Hnews.
    unfold field, obj. cbn [map fst snd lookup].
    change (jsstring_eqb (lit "news") (lit "error")) with false. cbv iota.
    destruct (jsstring_eqb (lit "news") (lit k)); discriminate.
Qed.

(** X15. When [displayWeatherData] completes for a report whose
    [rainVolume] is a number, the rain field reads "No rain" unless the
    number is greater than zero, and the number followed by " mm" when it
    is. *)
Theorem rain_field_reads_no_rain_unless_positive
  (host : Host) (weather : value) (p : page) (ops : list dom_op) (x : number)
  (Hdone : run_ui (displayWeatherData host weather) p = (Done tt, ops))
  (Hrain : field weather "rainVolume" = VNum x) :
  text_of "rainVolume" ops
  = Some (if is_positive x then VStr (NumberToString host x ++ lit " mm")
          else str "No rain").
Proof.
  revert Hdone.
  unfold run_ui, displayWeatherData, showWeatherSection, bindUI.
  cbn [pure write done throw].
  repeat (pure_step; [| discriminate]).
  assert (Ha7 : a7 = if is_positive x
                     then VStr (NumberToString host x ++ lit " mm")
                     else str "No rain").
  { destruct (get weather (lit "rainVolume")) as [v |] eqn:Hv;
      [| discriminate].
    apply get_field in Hv; [| reflexivity]. rewrite Hrain in Hv. subst v.
    revert Heqr7. cbn.
    destruct (is_positive x); intros [= <-]; reflexivity. }
  subst a7.
  destruct (ToBoolean a9); cbn [pure write done throw].
  - pure_step; [| discriminate]. unfold write. intros [= <-]. reflexivity.
  - intros [= <-]. reflexivity.
Qed.
(** X16. When the request of the page gets no answer, or an answer that is
    not JSON, the page shows the message of that failure, or "Failed to
    fetch data. Please try again." when the message is empty; the loading
    indicator is hidden and nothing is displayed. *)
Theorem transport_failure_is_shown
  (host : Host) (p : page) (c : code_unit) (s q message : jsstring)
  (Hcity : trim (cityInput_value p) = c :: s)
  (Hq : encodeURIComponent host (VStr (c :: s)) = Ok q)
  (Hfetch : fetch p (lit "/api/data?city=" ++ q) = NetworkError message
            \/ exists code,
                 fetch p (lit "/api/data?city=" ++ q) = NotJson code message) :
  exists error,
    thrown_message error = message
    /\ run_ui (fetchWeatherData host) p
       = (Done tt,
          [ClassListRemove "errorMessage" "show";
           SetDisplay "weatherSection" "none";
           SetDisplay "newsSection" "none";
           SetDisplay "loadingIndicator" "block";
           Fetch (lit "/api/data?city=" ++ q);
           LogError "Error fetching data:" error;
           SetDisplay "loadingIndicator" "none";
           SetTextContent "errorMessage"
             (match message with
              | [] => str "Failed to fetch data. Please try again."
              | _ => VStr message
              end);
           ClassListAdd "errorMessage" "show"]).
Proof.
  rewrite fetchWeatherData_run, Hcity.
  unfold fetchWeatherData_try. unfold bindUI at 1. rewrite Hq.
  cbn [bind pure]. unfold bindUI at 1. unfold fetch_json, API_BASE_URL.
  cbn [app].
  destruct Hfetch as [-> | (code & ->)].
  - exists (FetchFailed message). split; [reflexivity |].
    destruct message; reflexivity.
  - exists (JsonSyntaxError message). split; [reflexivity |].
    destruct message; reflexivity.
Qed.

(** ** The further statements at the examples *)

(** The weather route, with a key the provider does not accept. *)
Lemma weather_upstream_failure_statuses_unauthorized :
  ToBoolean (query_param london_request "city") = true
  /\ weatherUrl example_host example_env (query_param london_request "city")
     = Ok london_weatherUrl
  /\ run (get_api_weather example_host example_env london_request)
       (providers (Rejects (Some 401) (failed_with "401")) unreachable)
     = (Ok {| status := 401;
              body := obj [("error", str "Invalid API key");
                           ("message",
                            str "Please check your OpenWeather API key")] |},
        [HttpGet london_weatherUrl;
         ConsoleError (lit "Weather API Error:") (failed_with "401")]).
Proof.
  assert (Hcity : ToBoolean (query_param london_request "city") = true)
    by reflexivity.
  assert (Hurl : weatherUrl example_host example_env
                   (query_param london_request "city")
                 = Ok london_weatherUrl)
    by (vm_compute; reflexivity).
  split; [exact Hcity |]. split; [exact Hurl |].
  apply (proj1 (proj2 (weather_upstream_failure_statuses example_host
                         example_env london_request
                         (providers (Rejects (Some 401) (failed_with "401"))
                            unreachable)
                         london_weatherUrl Hcity Hurl))).
  vm_compute; reflexivity.
Defined.

(** A city and a country: the country is not looked at. *)
Lemma news_city_takes_precedence_london_gb :
  ToBoolean (query_param london_gb_request "city") = true
  /\ run (get_api_news example_host example_env london_gb_request)
       (providers unreachable (answers six_articles))
     = run (get_api_news example_host example_env london_request)
         (providers unreachable (answers six_articles)).
Proof.
  assert (Hcity : ToBoolean (query_param london_gb_request "city") = true)
    by reflexivity.
  split; [exact Hcity |].
  exact (proj1 (news_city_takes_precedence example_host example_env
                  london_gb_request
                  (providers unreachable (answers six_articles))) Hcity).
Defined.

(** London, with the news provider over its rate limit: the news route
    answers 429, the combined route carries the placeholder. *)
Lemma data_news_is_the_news_route_rate_limited :
  exists combined single t t',
    run (get_api_data example_host example_env london_request)
      (providers (answers london) (Rejects (Some 429) (failed_with "429")))
    = (Ok combined, t)
    /\ run (get_api_news example_host example_env london_request)
         (providers (answers london) (Rejects (Some 429) (failed_with "429")))
       = (Ok single, t')
    /\ status combined = 200
    /\ status single = 429
    /\ field (body combined) "news" = newsData_unavailable.
Proof.
  do 4 eexists.
  assert (Hdata :
    run (get_api_data example_host example_env london_request)
      (providers (answers london) (Rejects (Some 429) (failed_with "429")))
    = (Ok {| status := 200;
             body := obj [("weather", london_report);
                          ("news", newsData_unavailable)] |},
       [HttpGet london_weatherUrl; HttpGet london_newsUrl;
        ConsoleError (lit "News API Error (non-blocking):")
          (failed_with "429")]))
    by (vm_compute; reflexivity).
  assert (Hnews :
    run (get_api_news example_host example_env london_request)
      (providers (answers london) (Rejects (Some 429) (failed_with "429")))
    = (Ok {| status := 429;
             body := obj [("error", str "API rate limit exceeded");
                          ("message", str "Please try again later")] |},
       [HttpGet london_newsUrl;
        ConsoleError (lit "News API Error:") (failed_with "429")]))
    by (vm_compute; reflexivity).
  split; [exact Hdata |]. split; [exact Hnews |].
  split; [reflexivity |]. split; [reflexivity |].
  exact (data_news_is_the_news_route example_host example_env london_request
           _ _ _ _ _ Hdata Hnews eq_refl).
Defined.

(** A city in two words: the space travels as %20. *)
Lemma outbound_urls_encode_the_query_new_york :
  encodeURIComponent example_host (str "New York") = Ok (lit "New%20York")
  /\ weatherUrl example_host example_env (str "New York")
     = Ok (lit "https://api.openweathermap.org/data/2.5/weather?q=New%20York&appid=demo_key&units=metric")
  /\ forallb uri_safe (lit "New%20York") = true.
Proof.
  assert (Hq : encodeURIComponent example_host (str "New York")
               = Ok (lit "New%20York"))
    by (vm_compute; reflexivity).
  destruct (outbound_urls_encode_the_query example_host example_env
              (str "New York") (lit "New%20York") Hq) as (H1 & _ & H3 & _).
  split; [exact Hq |]. split; [| exact H3].
  refine (eq_trans H1 _). vm_compute; reflexivity.
Defined.

(** Three spaces in the city field. *)
Lemma blank_city_is_refused_without_a_request_spaces :
  forallb is_white_space (cityInput_value blank_page) = true
  /\ run_ui (fetchWeatherData example_browser) blank_page
     = (Done tt,
        [ClassListRemove "errorMessage" "show";
         SetDisplay "weatherSection" "none";
         SetDisplay "newsSection" "none";
         SetTextContent "errorMessage" (str "Please enter a city name");
         ClassListAdd "errorMessage" "show"]).
Proof.
  assert (Hblank : forallb is_white_space (cityInput_value blank_page) = true)
    by reflexivity.
  split; [exact Hblank |].
  exact (blank_city_is_refused_without_a_request example_browser blank_page
           Hblank).
Defined.

(** A place the weather provider does not know, seen from the page. *)
Lemma server_failure_is_shown_unknown_place :
  run (get_api_data example_host example_env unknown_place_request)
    nothing_found
  = (Ok city_not_found,
     [HttpGet unknown_place_weatherUrl;
      ConsoleError (lit "Combined API Error:") (failed_with "404")])
  /\ exists message,
       field (body city_not_found) "error" = str message
       /\ run_ui (fetchWeatherData example_browser) unknown_place_page
          = (Done tt,
             [ClassListRemove "errorMessage" "show";
              SetDisplay "weatherSection" "none";
              SetDisplay "newsSection" "none";
              SetDisplay "loadingIndicator" "block";
              Fetch (lit "/api/data?city=UnknownPlace123");
              LogError "Error fetching data:" (NewError (lit message));
              SetDisplay "loadingIndicator" "none";
              SetTextContent "errorMessage" (str message);
              ClassListAdd "errorMessage" "show"]).
Proof.
  assert (Hserver :
    run (get_api_data example_host example_env unknown_place_request)
      nothing_found
    = (Ok city_not_found,
       [HttpGet unknown_place_weatherUrl;
        ConsoleError (lit "Combined API Error:") (failed_with "404")]))
    by (vm_compute; reflexivity).
  split; [exact Hserver |].
  destruct (server_failure_is_shown example_host example_browser example_env
              unknown_place_request nothing_found city_not_found _
              unknown_place_page 85%N (lit "nknownPlace123")
              (lit "UnknownPlace123") Hserver)
    as (message & _ & Herror & Hrun);
    try (vm_compute; reflexivity); [discriminate |].
  exists message. split; [exact Herror | exact Hrun].
Defined.

(** London on a calm day, with the news provider over its rate limit, seen
    from the page. *)
Lemma unavailable_news_is_shown_as_no_news_london :
  run (get_api_data example_host example_env london_request)
    (providers (answers london_calm) (Rejects (Some 429) (failed_with "429")))
  = (Ok london_calm_answer,
     [HttpGet london_weatherUrl; HttpGet london_newsUrl;
      ConsoleError (lit "News API Error (non-blocking):")
        (failed_with "429")])
  /\ run_ui (fetchWeatherData example_browser) london_page
     = (Done tt,
        [ClassListRemove "errorMessage" "show";
         SetDisplay "weatherSection" "none";
         SetDisplay "newsSection" "none";
         SetDisplay "loadingIndicator" "block";
         Fetch (lit "/api/data?city=London");
         SetDisplay "loadingIndicator" "none"]
        ++ london_calm_writes
        ++ [SetInnerHTML "newsArticles" no_news_markup;
            SetDisplay "newsSection" "block"]).
Proof.
  assert (Hserver :
    run (get_api_data example_host example_env london_request)
      (providers (answers london_calm)
         (Rejects (Some 429) (failed_with "429")))
    = (Ok london_calm_answer,
       [HttpGet london_weatherUrl; HttpGet london_newsUrl;
        ConsoleError (lit "News API Error (non-blocking):")
          (failed_with "429")]))
    by (vm_compute; reflexivity).
  split; [exact Hserver |].
  apply (unavailable_news_is_shown_as_no_news example_host example_browser
           example_env london_request _ london_calm_answer _ london_page
           76%N (lit "ondon") (lit "London") london_calm_writes Hserver);
    vm_compute; reflexivity.
Defined.

(** A dry day in London. *)
Lemma rain_field_reads_no_rain_unless_positive_dry :
  run_ui (displayWeatherData example_browser (wire london_calm_report))
    london_page
  = (Done tt, london_calm_writes)
  /\ field (wire london_calm_report) "rainVolume" = VNum (number_of_Z 0)
  /\ text_of "rainVolume" london_calm_writes = Some (str "No rain").
Proof.
  assert (Hdone :
    run_ui (displayWeatherData example_browser (wire london_calm_report))
      london_page
    = (Done tt, london_calm_writes))
    by (vm_compute; reflexivity).
  assert (Hrain : field (wire london_calm_report) "rainVolume"
                  = VNum (number_of_Z 0))
    by (vm_compute; reflexivity).
  split; [exact Hdone |]. split; [exact Hrain |].
  exact (rain_field_reads_no_rain_unless_positive example_browser
           (wire london_calm_report) london_page london_calm_writes
           (number_of_Z 0) Hdone Hrain).
Defined.

(** A page that reaches no server. *)
Lemma transport_failure_is_shown_offline :
  trim (cityInput_value london_offline_page) = lit "London"
  /\ exists error,
       thrown_message error = lit "Failed to fetch"
       /\ run_ui (fetchWeatherData example_browser) london_offline_page
          = (Done tt,
             [ClassListRemove "errorMessage" "show";
              SetDisplay "weatherSection" "none";
              SetDisplay "newsSection" "none";
              SetDisplay "loadingIndicator" "block";
              Fetch (lit "/api/data?city=London");
              LogError "Error fetching data:" error;
              SetDisplay "loadingIndicator" "none";
              SetTextContent "errorMessage" (str "Failed to fetch");
              ClassListAdd "errorMessage" "show"]).
Proof.
  split; [vm_compute; reflexivity |].
  apply (transport_failure_is_shown example_browser london_offline_page
           76%N (lit "ondon") (lit "London") (lit "Failed to fetch"));
    [vm_compute; reflexivity | vm_compute; reflexivity |].
  left. reflexivity.
Defined.
